(** * The Snowflake MCP HTTP server: tool registry, dispatch gateway and
    HTTP/SSE surface of [http_server.py], embedded and verified.

  The Python module is embedded shallowly:
  - Python values that cross the JSON boundary are terms of [Py.json];
    a [dict] keeps its insertion order as an association list;
  - the external tool handlers ([handle_list_databases] and its siblings,
    imported from the MCP server package) are a parameter of the
    development: a function from the call they receive and the state of
    the outside world (database session, insight memo) to an outcome and
    a new world;
  - [call_tool] therefore threads the world explicitly and records every
    handler call it makes;
  - the heartbeat generator of [/sse] is the resumable state machine a
    Python generator is, run against an explicit clock. *)

From Stdlib Require Import ZArith.
From Stdlib Require Import List String Bool Arith Lia.
From Stdlib Require Import QArith Lqa.
Import ListNotations.

Local Open Scope string_scope.
Local Open Scope list_scope.

(* ================================================================== *)
(** ** Python values *)
(* ================================================================== *)

Module Py.

(** JSON-serialisable Python values: [None], [bool], [str], numbers,
    [list] and [dict] (ordered by insertion). *)
#[local] Unset Elimination Schemes.
Inductive json : Type :=
| JNull
| JBool (b : bool)
| JNum (q : Q)
| JStr (s : string)
| JList (items : list json)
| JObj (fields : list (string * json)).
#[local] Set Elimination Schemes.

(** Python truthiness, as used by [x or default] and [if not x]. *)
Definition truthy (v : json) : bool :=
  match v with
  | JNull => false
  | JBool b => b
  | JNum q => negb (Qeq_bool q 0)
  | JStr s => negb (String.eqb s "")
  | JList items => match items with [] => false | _ => true end
  | JObj fields => match fields with [] => false | _ => true end
  end.

(** [x or d] on JSON values. *)
Definition or_else (x d : json) : json := if truthy x then x else d.

(** [x or []] for an optional list of strings ([None] and [[]] are both
    falsy). *)
Definition or_empty (x : option (list string)) : list string :=
  match x with
  | None => []
  | Some [] => []
  | Some l => l
  end.

(** [s in l] for a list of strings. *)
Definition str_in (s : string) (l : list string) : bool :=
  existsb (String.eqb s) l.

(** [any(p(x) for x in l)]. *)
Definition any {A : Type} (p : A -> bool) (l : list A) : bool := existsb p l.

(** [d.get(k)]: the value stored under a key of a dict literal, [None]
    (here [None] of [option]) when the key is absent. *)
Fixpoint assoc (k : string) (fields : list (string * json)) : option json :=
  match fields with
  | [] => None
  | (k', v) :: rest => if String.eqb k k' then Some v else assoc k rest
  end.

Definition get (k : string) (d : json) : option json :=
  match d with
  | JObj fields => assoc k fields
  | _ => None
  end.

(** Keys of a dict, in order; [[]] for anything that is not a dict. *)
Definition keys (v : json) : list string :=
  match v with
  | JObj fields => map fst fields
  | _ => []
  end.

(** Python's exception hierarchy as far as [except Exception] can tell:
    a raised object is an instance of [Exception], or it derives from
    [BaseException] only ([KeyboardInterrupt], [SystemExit],
    [asyncio.CancelledError], [GeneratorExit]). *)
Inductive exc_class : Type := ExceptionClass | BaseExceptionOnly.

(** A raised object, seen through its class and through [str(e)]. *)
Record exc : Type := mk_exc { exc_cls : exc_class; exc_str : string }.

Definition isinstance_Exception (e : exc) : bool :=
  match exc_cls e with
  | ExceptionClass => true
  | BaseExceptionOnly => false
  end.

End Py.

Import Py.

(* ================================================================== *)
(** ** Tool descriptors and the catalog *)
(* ================================================================== *)

(** The handler functions imported from the MCP server package.  They are
    Python function objects: always truthy, compared by identity. *)
Inductive Handler : Type :=
| handle_list_databases
| handle_list_schemas
| handle_list_tables
| handle_describe_table
| handle_read_query
| handle_append_insight
| handle_write_query
| handle_create_table.

(** The [Tool] model class: [tags] defaults to the empty list. *)
Module Tool.

Record t : Type := mk {
  name : string;
  description : string;
  input_schema : json;
  handler : Handler;
  tags : list string
}.

(** The default of the [tags] field. *)
Definition default_tags : list string := [].

End Tool.

Module Catalog.

Definition string_prop (descr : string) : json :=
  JObj [("type", JStr "string"); ("description", JStr descr)].

Definition object_schema (props : list (string * json)) (required : list string)
  : json :=
  JObj [("type", JStr "object");
        ("properties", JObj props);
        ("required", JList (map JStr required))].

Definition list_databases : Tool.t :=
  Tool.mk "list_databases"
         "List all available databases in Snowflake"
         (JObj [("type", JStr "object"); ("properties", JObj [])])
         handle_list_databases
         Tool.default_tags.

Definition list_schemas : Tool.t :=
  Tool.mk "list_schemas"
         "List all schemas in a database"
         (object_schema
            [("database", string_prop "Database name to list schemas from")]
            ["database"])
         handle_list_schemas
         Tool.default_tags.

Definition list_tables : Tool.t :=
  Tool.mk "list_tables"
         "List all tables in a specific database and schema"
         (object_schema
            [("database", string_prop "Database name");
             ("schema", string_prop "Schema name")]
            ["database"; "schema"])
         handle_list_tables
         Tool.default_tags.

Definition describe_table : Tool.t :=
  Tool.mk "describe_table"
         "Get the schema information for a specific table"
         (object_schema
            [("table_name",
              string_prop
                "Fully qualified table name in the format 'database.schema.table'")]
            ["table_name"])
         handle_describe_table
         Tool.default_tags.

Definition read_query : Tool.t :=
  Tool.mk "read_query"
         "Execute a SELECT query"
         (object_schema
            [("query", string_prop "SELECT SQL query to execute")]
            ["query"])
         handle_read_query
         Tool.default_tags.

Definition append_insight : Tool.t :=
  Tool.mk "append_insight"
         "Add a data insight to the memo"
         (object_schema
            [("insight", string_prop "Data insight discovered from analysis")]
            ["insight"])
         handle_append_insight
         ["resource_based"].

Definition write_query : Tool.t :=
  Tool.mk "write_query"
         "Execute an INSERT, UPDATE, or DELETE query on the Snowflake database"
         (object_schema
            [("query", string_prop "SQL query to execute")]
            ["query"])
         handle_write_query
         ["write"].

Definition create_table : Tool.t :=
  Tool.mk "create_table"
         "Create a new table in the Snowflake database"
         (object_schema
            [("query", string_prop "CREATE TABLE SQL statement")]
            ["query"])
         handle_create_table
         ["write"].

(** The list literal [self.all_tools] starts from. *)
Definition base_tools : list Tool.t :=
  [list_databases; list_schemas; list_tables; describe_table; read_query;
   append_insight].

(** The list literal passed to [self.all_tools.extend] under
    [if allow_write]. *)
Definition write_tools : list Tool.t := [write_query; create_table].

(** Every descriptor the module declares, in declaration order. *)
Definition full_catalog : list Tool.t := base_tools ++ write_tools.

End Catalog.

(* ================================================================== *)
(** ** External collaborators *)
(* ================================================================== *)

(** [SnowflakeDB(connection_args)]: the database client object.  Its
    connection life cycle belongs to the client and lives in the world. *)
Record SnowflakeDB : Type := mkSnowflakeDB { db_connection_args : json }.

(** [SQLWriteDetector()]: the write-intent classifier object. *)
Inductive SQLWriteDetector : Type := mkSQLWriteDetector.

(** The MCP server object a handler takes as fifth argument; the HTTP
    gateway has none to give. *)
Inductive McpServer : Type := mkMcpServer.

(** One element of a list a handler returns, seen through the two
    observations [call_tool] makes of it: [item.text] when
    [hasattr(item, 'text')] (a [str], as for MCP text content), and
    [str(item)]. *)
Record Content : Type := mkContent {
  text : option string;
  content_str : string
}.

(** What a handler returns, seen through [isinstance(result, list)] and
    [str(result)]. *)
Inductive HandlerResult : Type :=
| PyList (items : list Content)
| PyOther (str_of : string).

(** A handler call either returns or raises. *)
Inductive HandlerOutcome : Type :=
| Returns (result : HandlerResult)
| Raises (e : exc).

(** The actual parameters of [handler(arguments, db, write_detector,
    allow_write, server, **kwargs)].  [arguments] is [JNull] for Python's
    [None]; a keyword argument that is not passed is [None] of [option]. *)
Record HandlerArgs : Type := mkHandlerArgs {
  arg_arguments : json;
  arg_db : SnowflakeDB;
  arg_write_detector : SQLWriteDetector;
  arg_allow_write : bool;
  arg_server : option McpServer;
  kw_exclusion_config : option json;
  kw_exclude_json_results : option bool
}.

(** The handler implementations: given the handler, its actual
    parameters and the world, an outcome and the world afterwards. *)
Class Handlers : Type := {
  World : Type;
  run_handler : Handler -> HandlerArgs -> World -> HandlerOutcome * World
}.

(* ================================================================== *)
(** ** [class MCPHTTPServer] *)
(* ================================================================== *)

(** How a call of [MCPHTTPServer.call_tool] ends: it returns a dict, or a
    raised object leaves it. *)
Inductive CallOutcome : Type :=
| Returned (d : json)
| Propagated (e : exc).

Module MCPHTTPServer.

Record t : Type := mk {
  connection_args : json;
  allow_write : bool;
  exclude_tools : list string;
  exclude_json_results : bool;
  exclusion_config : json;
  db : SnowflakeDB;
  write_detector : SQLWriteDetector;
  all_tools : list Tool.t;
  allowed_tools : list Tool.t
}.

(** The literal [{"databases": [], "schemas": [], "tables": []}]. *)
Definition default_exclusion_config : json :=
  JObj [("databases", JList []); ("schemas", JList []); ("tables", JList [])].

(** [exclude_tags = [] if allow_write else ["write"]]. *)
Definition exclude_tags (allow_write : bool) : list string :=
  if allow_write then [] else ["write"].

(** The condition of the comprehension that builds [allowed_tools]:
    [tool.name not in self.exclude_tools and
     not any(tag in exclude_tags for tag in tool.tags)]. *)
Definition retained (exclude_tools exclude_tags : list string) (tool : Tool.t)
  : bool :=
  negb (str_in (Tool.name tool) exclude_tools)
  && negb (any (fun tag => str_in tag exclude_tags) (Tool.tags tool)).

(** [__init__].  A parameter left at its default [None] is [None] of
    [option] for [exclude_tools] and [JNull] for [exclusion_config].  The
    database connection the constructor starts is the client's business
    and sets no field; the [logger.info] line is not modelled. *)
Definition init (connection_args : json) (allow_write : bool)
  (exclude_tools : option (list string)) (exclude_json_results : bool)
  (exclusion_config : json) : t :=
  let self_exclude_tools := or_empty exclude_tools in
  let all_tools :=
    Catalog.base_tools ++ (if allow_write then Catalog.write_tools else []) in
  {| connection_args := connection_args;
     allow_write := allow_write;
     exclude_tools := self_exclude_tools;
     exclude_json_results := exclude_json_results;
     exclusion_config := or_else exclusion_config default_exclusion_config;
     db := mkSnowflakeDB connection_args;
     write_detector := mkSQLWriteDetector;
     all_tools := all_tools;
     allowed_tools :=
       filter (retained self_exclude_tools (exclude_tags allow_write)) all_tools |}.

(** [next((tool.handler for tool in tools if tool.name == name), None)]. *)
Fixpoint next_handler (tools : list Tool.t) (name : string) : option Handler :=
  match tools with
  | [] => None
  | tool :: rest =>
      if String.eqb (Tool.name tool) name then Some (Tool.handler tool)
      else next_handler rest name
  end.

(** The names [call_tool] passes [exclusion_config] for. *)
Definition enumeration_tools : list string :=
  ["list_databases"; "list_schemas"; "list_tables"].

(** The actual parameters [call_tool] builds for the resolved handler. *)
Definition handler_args (self : t) (name : string) (arguments : json)
  : HandlerArgs :=
  if str_in name enumeration_tools then
    {| arg_arguments := arguments;
       arg_db := db self;
       arg_write_detector := write_detector self;
       arg_allow_write := allow_write self;
       arg_server := None;
       kw_exclusion_config := Some (exclusion_config self);
       kw_exclude_json_results := Some (exclude_json_results self) |}
  else
    {| arg_arguments := arguments;
       arg_db := db self;
       arg_write_detector := write_detector self;
       arg_allow_write := allow_write self;
       arg_server := None;
       kw_exclusion_config := None;
       kw_exclude_json_results := Some (exclude_json_results self) |}.

(** [item.text if hasattr(item, 'text') else str(item)]. *)
Definition item_text (item : Content) : string :=
  match text item with
  | Some s => s
  | None => content_str item
  end.

(** The conversion of a handler result to the dict returned. *)
Definition to_json_result (result : HandlerResult) : json :=
  match result with
  | PyList items => JObj [("result", JList (map (fun item => JStr (item_text item)) items))]
  | PyOther s => JObj [("result", JStr s)]
  end.

Definition error_dict (message : string) : json := JObj [("error", JStr message)].

(** [try: ... except Exception as e: return {"error": str(e)}] around a
    body that returned or raised. *)
Definition try_except_Exception (body : HandlerOutcome) : CallOutcome :=
  match body with
  | Returns result => Returned (to_json_result result)
  | Raises e =>
      if isinstance_Exception e then Returned (error_dict (exc_str e))
      else Propagated e
  end.

Section Methods.

Context {H : Handlers}.

(** One run of [call_tool]: how it ended, the handler calls it made (in
    order) and the world it left. *)
Record Run : Type := mkRun {
  outcome : CallOutcome;
  calls : list (Handler * HandlerArgs);
  world_after : World
}.

(** [async def call_tool(self, name, arguments=None)].  [await handler(...)]
    is the one point where the outside world moves.  The [logger.error]
    line of the [except] branch is not modelled. *)
Definition call_tool (self : t) (name : string) (arguments : json) (w : World)
  : Run :=
  if str_in name (exclude_tools self) then
    mkRun (Returned (error_dict ("Tool " ++ name ++ " is excluded from this data connection")))
          [] w
  else
    match next_handler (allowed_tools self) name with
    | None => mkRun (Returned (error_dict ("Unknown tool: " ++ name))) [] w
    | Some handler =>
        let args := handler_args self name arguments in
        let (result, w') := run_handler handler args w in
        mkRun (try_except_Exception result) [(handler, args)] w'
    end.

End Methods.

(** [get_tools_list]. *)
Definition get_tools_list (self : t) : list json :=
  map (fun tool =>
         JObj [("name", JStr (Tool.name tool));
               ("description", JStr (Tool.description tool));
               ("input_schema", Tool.input_schema tool)])
      (allowed_tools self).

End MCPHTTPServer.

(* ================================================================== *)
(** ** The FastAPI endpoints *)
(* ================================================================== *)

Module App.

(** How an endpoint function ends: it returns a body (sent with status
    200), raises [HTTPException], or lets a raised object through. *)
Inductive Response : Type :=
| Body (body : json)
| HTTPException (status_code : nat) (detail : string)
| Unhandled (e : exc).

(** [GET /]. *)
Definition root : Response :=
  Body (JObj [("name", JStr "Snowflake MCP Server");
              ("version", JStr "1.0.0");
              ("status", JStr "running");
              ("transport", JStr "http")]).

(** [GET /tools], reading the global [mcp_server]. *)
Definition list_tools (mcp_server : option MCPHTTPServer.t) : Response :=
  match mcp_server with
  | None => HTTPException 500 "Server not initialized"
  | Some server => Body (JObj [("tools", JList (MCPHTTPServer.get_tools_list server))])
  end.

(** [initialize_server]: the value the global [mcp_server] is assigned. *)
Definition initialize_server (connection_args : json) (allow_write : bool)
  (exclude_tools : option (list string)) (exclude_json_results : bool)
  (exclusion_config : json) : option MCPHTTPServer.t :=
  Some (MCPHTTPServer.init connection_args allow_write
          (Some (or_empty exclude_tools)) exclude_json_results
          (or_else exclusion_config MCPHTTPServer.default_exclusion_config)).

Section Endpoints.

Context {H : Handlers}.

(** One run of an endpoint that may reach a handler. *)
Record EndpointRun : Type := mkEndpointRun {
  response : Response;
  handler_calls : list (Handler * HandlerArgs);
  world_left : World
}.

(** The endpoint function [call_tool(tool_name, arguments)] that the route
    [POST /tools/{tool_name}] runs once the request has passed validation
    (for the whole route see [post_tools]); it reads the global
    [mcp_server]. *)
Definition call_tool (mcp_server : option MCPHTTPServer.t) (tool_name : string)
  (arguments : json) (w : World) : EndpointRun :=
  match mcp_server with
  | None => mkEndpointRun (HTTPException 500 "Server not initialized") [] w
  | Some server =>
      let run := MCPHTTPServer.call_tool server tool_name arguments w in
      mkEndpointRun
        match MCPHTTPServer.outcome run with
        | Returned result => Body result
        | Propagated e => Unhandled e
        end
        (MCPHTTPServer.calls run)
        (MCPHTTPServer.world_after run)
  end.

End Endpoints.

(** The body of a request as FastAPI reads it: none, or the JSON value it
    parses to. *)
Inductive RequestBody : Type :=
| NoBody
| JsonBody (v : json).

(** FastAPI's validation of the one body parameter of the route,
    [arguments: dict = None], made before the endpoint function runs:
    without a body, or with the body [null], [arguments] is the default
    [None]; a JSON object is [arguments]; any other JSON value is not a
    dict, and the request is refused ([None] of [option]). *)
Definition validate_arguments (body : RequestBody) : option json :=
  match body with
  | NoBody => Some JNull
  | JsonBody JNull => Some JNull
  | JsonBody (JObj fields) => Some (JObj fields)
  | JsonBody _ => None
  end.

Section Routes.

Context {H : Handlers}.

(** How the route answers: with 422 when validation refuses the request,
    the endpoint function not being run; or with what the endpoint
    function does. *)
Inductive Served : Type :=
| ValidationError422
| Handled (run : EndpointRun).

(** The route [@app.post("/tools/{tool_name}")]: validation, then
    [call_tool]. *)
Definition post_tools (mcp_server : option MCPHTTPServer.t) (tool_name : string)
  (body : RequestBody) (w : World) : Served :=
  match validate_arguments body with
  | None => ValidationError422
  | Some arguments => Handled (call_tool mcp_server tool_name arguments w)
  end.

End Routes.

(** One run of [initialize_server] from the global [mcp_server] it finds.
    The constructor creates the database client and starts its
    connection ([db_started] is what that raised, if anything): when it
    raises, the assignment to the global does not happen and the raised
    object leaves [initialize_server]. *)
Definition initialize_server_run (db_started : option exc)
  (mcp_server : option MCPHTTPServer.t)
  (connection_args : json) (allow_write : bool)
  (exclude_tools : option (list string)) (exclude_json_results : bool)
  (exclusion_config : json) : option MCPHTTPServer.t * option exc :=
  match db_started with
  | Some e => (mcp_server, Some e)
  | None =>
      (initialize_server connection_args allow_write exclude_tools
         exclude_json_results exclusion_config, None)
  end.

End App.

(* ================================================================== *)
(** ** [GET /sse]: the heartbeat generator *)
(* ================================================================== *)

Module Sse.

(** The event loop as the generator sees it: [loop.time()], the state
    after [await asyncio.sleep(seconds)], and the state in which the
    consumer resumes a generator that was suspended at a [yield]. *)
Class EventLoop : Type := {
  Env : Type;
  time : Env -> Q;
  sleep : Q -> Env -> Env;
  resume : Env -> Env
}.

(** The clock is monotonic, a sleep of [d] seconds lasts at least [d]
    seconds, and time does not run backwards while the generator is
    suspended. *)
Class EventLoopLaws (L : EventLoop) : Prop := {
  sleep_lasts : forall d e, time e + d <= time (sleep d e);
  resume_later : forall e, time e <= time (resume e)
}.

(** The chunk [f"data: {json.dumps(payload)}\n\n"], kept as its payload. *)
Inductive Chunk : Type := Data (payload : json).

Definition connection_event : json :=
  JObj [("type", JStr "connection"); ("status", JStr "connected")].

Definition ping_event (timestamp : Q) : json :=
  JObj [("type", JStr "ping"); ("timestamp", JNum timestamp)].

(** Where the generator [event_stream] is suspended: not started yet, at
    the first [yield], or at the [yield] inside [while True]. *)
Inductive Pc : Type := Created | AtConnection | AtPing.

(** One item the generator produced: the chunk, the sleeps it awaited
    since it was resumed, and the clock when it yielded. *)
Record Emission : Type := mkEmission {
  chunk : Chunk;
  slept : list Q;
  emitted_at : Q
}.

(** [sse_endpoint] hands a fresh generator to [StreamingResponse]. *)
Definition event_stream : Pc := Created.

Section Generator.

Context {L : EventLoop}.

(** [__anext__]: run the generator body from where it is suspended to its
    next [yield].  Resumed at the [yield] inside the loop, the body first
    awaits [asyncio.sleep(30)] and then goes round the loop. *)
Definition anext (pc : Pc) (e : Env) : Emission * Pc * Env :=
  match pc with
  | Created =>
      (mkEmission (Data connection_event) [] (time e), AtConnection, e)
  | AtConnection =>
      (mkEmission (Data (ping_event (time e))) [] (time e), AtPing, e)
  | AtPing =>
      let e' := sleep 30 e in
      (mkEmission (Data (ping_event (time e'))) [30] (time e'), AtPing, e')
  end.

(** The first [n] items a consumer draws from the generator. *)
Fixpoint drain (n : nat) (pc : Pc) (e : Env) : list Emission :=
  match n with
  | O => []
  | S n' =>
      let '(item, pc', e') := anext pc e in
      item :: drain n' pc' (resume e')
  end.

End Generator.

(** [q] was yielded at least [gap] seconds after [p]. *)
Definition follows (gap : Q) (p q : Emission) : Prop :=
  emitted_at p + gap <= emitted_at q.

(** Every item of [items] is related to its predecessor, [prev] being the
    predecessor of the first. *)
Fixpoint chain (R : Emission -> Emission -> Prop) (prev : Emission)
  (items : list Emission) : Prop :=
  match items with
  | [] => True
  | item :: rest => R prev item /\ chain R item rest
  end.

(** A ping that carries the clock reading it was yielded at, after the
    given sleeps. *)
Definition ping_after (sleeps : list Q) (item : Emission) : Prop :=
  chunk item = Data (ping_event (emitted_at item)) /\ slept item = sleeps.

(** The timestamp a ping chunk carries. *)
Definition ping_timestamp (c : Chunk) : option Q :=
  match c with
  | Data (JObj [("type", JStr "ping"); ("timestamp", JNum t)]) => Some t
  | _ => None
  end.

(** Two pings whose timestamps do not decrease. *)
Definition timestamps_ordered (p q : Emission) : Prop :=
  exists tp tq : Q,
    ping_timestamp (chunk p) = Some tp /\ ping_timestamp (chunk q) = Some tq
    /\ tp <= tq.

(** A loop in which nothing but [asyncio.sleep] takes time: the state is
    the clock reading. *)
Definition ideal_loop : EventLoop :=
  {| Env := Q;
     time := fun e => e;
     sleep := fun d e => e + d;
     resume := fun e => e |}.

End Sse.

(* ================================================================== *)
(** ** [start_http_server.py]: configuration loading and [main] *)
(* ================================================================== *)

Module StartHttpServer.

(** A call that returns a value or raises. *)
Inductive result (A : Type) : Type :=
| Ok (v : A)
| Err (e : exc).

Arguments Ok {A} v.
Arguments Err {A} e.

(** What the start-up code asks of the outside: [open] followed by
    [tomli.load] (a dict) or [json.load] (any JSON value),
    [os.path.exists], and the construction of the database client with
    the start of its connection ([None] when nothing is raised). *)
Class Files : Type := {
  load_toml : string -> result (list (string * json));
  path_exists : string -> bool;
  load_json : string -> result json;
  db_start : json -> option exc
}.

(** [k in d] for a dict. *)
Definition has_key (k : string) (d : list (string * json)) : bool :=
  existsb (fun kv => String.eqb k (fst kv)) d.

(** [ValueError(message)] and the [KeyError] of a failed [d[k]]. *)
Definition ValueError (message : string) : exc := mk_exc ExceptionClass message.

Definition KeyError (key : string) : exc :=
  mk_exc ExceptionClass ("'" ++ key ++ "'").

(** [except Exception as e: logger.error(...); raise]: whatever was
    raised is raised again. *)
Definition except_Exception_reraise {A : Type} (body : result A) : result A :=
  match body with
  | Ok v => Ok v
  | Err e => if isinstance_Exception e then Err e else Err e
  end.

(** [except Exception as e: logger.warning(...); return {}]. *)
Definition except_Exception_return (fallback : json) (body : result json)
  : result json :=
  match body with
  | Ok v => Ok v
  | Err e => if isinstance_Exception e then Ok fallback else Err e
  end.

Section Loading.

Context {F : Files}.

(** [load_toml_config(connections_file, connection_name)]. *)
Definition load_toml_config (connections_file connection_name : string)
  : result json :=
  except_Exception_reraise
    match load_toml connections_file with
    | Err e => Err e
    | Ok config =>
        if negb (has_key connection_name config) then
          Err (ValueError ("Connection '" ++ connection_name ++ "' not found in "
                           ++ connections_file))
        else
          match assoc connection_name config with
          | Some section => Ok section
          | None => Err (KeyError connection_name)
          end
    end.

(** [load_runtime_config(config_file)]. *)
Definition load_runtime_config (config_file : string) : result json :=
  except_Exception_return (JObj [])
    (if path_exists config_file then load_json config_file else Ok (JObj [])).

End Loading.

(** The parsed command line ([argparse.Namespace]).  [exclude_tools] is a
    list, empty when the option is not given. *)
Record Namespace : Type := mkNamespace {
  connections_file : string;
  connection_name : string;
  host : string;
  port : Z;
  allow_write : bool;
  exclude_tools : list string;
  exclude_json_results : bool;
  log_level : string;
  config_file : string
}.

(** The default of [runtime_config.get("exclude_patterns", ...)]. *)
Definition default_exclude_patterns : json :=
  JObj [("databases", JList [JStr "temp"]);
        ("schemas", JList [JStr "temp"; JStr "information_schema"]);
        ("tables", JList [JStr "temp"])].

(** [runtime_config.get(key, default)]: only a dict has [get]; on any
    other value the attribute lookup raises [AttributeError], an instance
    of [Exception], here [None] of [option]. *)
Definition get_or_default (runtime_config : json) (key : string) (default : json)
  : option json :=
  match runtime_config with
  | JObj fields =>
      match assoc key fields with
      | Some v => Some v
      | None => Some default
      end
  | _ => None
  end.

(** How [main] ends once the command line is parsed: it calls
    [run_server(host, port)] with the global [mcp_server] set, or
    [sys.exit(code)], or an object that is not an instance of [Exception]
    leaves it. *)
Inductive MainOutcome : Type :=
| RunServer (host : string) (port : Z) (mcp_server : option MCPHTTPServer.t)
| SysExit (code : Z)
| Escapes (e : exc).

(** [except Exception as e: logger.error(...); sys.exit(1)]. *)
Definition except_Exception_exit (e : exc) : MainOutcome :=
  if isinstance_Exception e then SysExit 1 else Escapes e.

Section Main.

Context {F : Files}.

(** [main], from the parsed arguments on.  Logging and [print] are not
    modelled; what [run_server] does once called is the HTTP server's
    business. *)
Definition main (args : Namespace) : MainOutcome :=
  match load_toml_config (connections_file args) (connection_name args) with
  | Err e => except_Exception_exit e
  | Ok connection_args =>
      match load_runtime_config (config_file args) with
      | Err e => except_Exception_exit e
      | Ok runtime_config =>
          match get_or_default runtime_config "exclude_patterns"
                  default_exclude_patterns with
          | None => SysExit 1
          | Some exclusion_config =>
              match db_start connection_args with
              | Some e => except_Exception_exit e
              | None =>
                  RunServer (host args) (port args)
                    (App.initialize_server connection_args (allow_write args)
                       (Some (exclude_tools args)) (exclude_json_results args)
                       exclusion_config)
              end
          end
      end
  end.

End Main.

End StartHttpServer.

(* ================================================================== *)
(** ** The specification's vocabulary *)
(* ================================================================== *)

Module Spec.

(** The membership condition in the words of the specification: the name
    is not excluded, and writes are allowed or the tool is not tagged
    ["write"]. *)
Definition spec_allows (allow_write : bool) (excl : list string) (tool : Tool.t)
  : bool :=
  negb (str_in (Tool.name tool) excl)
  && (allow_write || negb (str_in "write" (Tool.tags tool))).

(** The three response bodies of the specification. *)
Definition result_string (d : json) : Prop :=
  exists s : string, d = JObj [("result", JStr s)].

Definition result_strings (d : json) : Prop :=
  exists ss : list string, d = JObj [("result", JList (map JStr ss))].

Definition error_string (d : json) : Prop :=
  exists message : string, d = JObj [("error", JStr message)].

(** The gateway contract as the specification words it: whatever a
    resolved handler raises, [call_tool] returns [{"error": str(e)}]. *)
Definition every_handler_fault_is_caught : Prop :=
  forall (H : Handlers) (self : MCPHTTPServer.t) (name : string)
         (arguments : json) (w : World) (handler : Handler) (e : exc)
         (w' : World),
    ~ In name (MCPHTTPServer.exclude_tools self) ->
    MCPHTTPServer.next_handler (MCPHTTPServer.allowed_tools self) name
    = Some handler ->
    run_handler handler (MCPHTTPServer.handler_args self name arguments) w
    = (Raises e, w') ->
    MCPHTTPServer.outcome (MCPHTTPServer.call_tool self name arguments w)
    = Returned (JObj [("error", JStr (exc_str e))]).

(** The initialisation guard as the specification words it: while the
    global server is not set, every request to the invocation route is
    answered by the fault 500 "Server not initialized". *)
Definition uninitialized_request_gets_500 : Prop :=
  forall (H : Handlers) (tool_name : string) (body : App.RequestBody) (w : World),
  exists run : App.EndpointRun,
    App.post_tools None tool_name body w = App.Handled run
    /\ App.response run = App.HTTPException 500 "Server not initialized".

(** The heartbeat as the specification words it: in every lawful event
    loop the second item of the stream is yielded at least 30 seconds
    after the first. *)
Definition second_event_after_30s : Prop :=
  forall (L : Sse.EventLoop), Sse.EventLoopLaws L ->
  forall (e : Sse.Env) (first second : Sse.Emission),
    Sse.drain 2 Sse.event_stream e = [first; second] ->
    Sse.emitted_at first + 30 <= Sse.emitted_at second.

End Spec.

(* ================================================================== *)
(** ** Stub collaborators *)
(* ================================================================== *)

(** Side-effect-tracking stub handlers: the world is the list of handlers
    that ran, and each handler ends the way the script says. *)
Definition stub_handlers (script : Handler -> HandlerOutcome) : Handlers :=
  {| World := list Handler;
     run_handler := fun handler _ w => (script handler, w ++ [handler]) |}.

(** The stub world in which no handler has run yet. *)
Definition nothing_ran : list Handler := [].

(** Every handler returns one text item and one item without a [text]
    attribute. *)
Definition two_items : Handler -> HandlerOutcome :=
  fun _ => Returns (PyList [mkContent (Some "DB1") "TextContent(text='DB1')";
                            mkContent None "ImageContent()"]).

(** Every handler raises an ordinary exception. *)
Definition failing : Handler -> HandlerOutcome :=
  fun _ => Raises (mk_exc ExceptionClass "connection lost").

(** Every handler is cancelled while it is awaited:
    [asyncio.CancelledError] derives from [BaseException] only. *)
Definition cancelled : Handler -> HandlerOutcome :=
  fun _ => Raises (mk_exc BaseExceptionOnly "").

(** Every handler returns the empty list. *)
Definition empty_list : Handler -> HandlerOutcome :=
  fun _ => Returns (PyList []).

(** A read-only server with the default configuration, and a server that
    allows writes and excludes [create_table]. *)
Definition read_only_server : MCPHTTPServer.t :=
  MCPHTTPServer.init (JObj []) false None false JNull.

Definition write_server : MCPHTTPServer.t :=
  MCPHTTPServer.init (JObj []) true (Some ["create_table"]) false JNull.

(** Files for a start-up: [connections.toml] holds the section [prod],
    every other path fails to open; the runtime configuration file is as
    given ([None]: it does not exist); the database client starts. *)
Definition sample_files (runtime : option (StartHttpServer.result json))
  : StartHttpServer.Files :=
  {| StartHttpServer.load_toml := fun path =>
       if String.eqb path "connections.toml"
       then StartHttpServer.Ok [("prod", JObj [("account", JStr "acme")])]
       else StartHttpServer.Err
              (mk_exc ExceptionClass "[Errno 2] No such file or directory");
     StartHttpServer.path_exists := fun _ =>
       match runtime with Some _ => true | None => false end;
     StartHttpServer.load_json := fun _ =>
       match runtime with
       | Some r => r
       | None => StartHttpServer.Err
                   (mk_exc ExceptionClass "[Errno 2] No such file or directory")
       end;
     StartHttpServer.db_start := fun _ => None |}.

(** The command line [--connections-file connections.toml
    --connection-name NAME], everything else at its default. *)
Definition sample_args (connection_name : string) : StartHttpServer.Namespace :=
  StartHttpServer.mkNamespace "connections.toml" connection_name "0.0.0.0" 8000
    false [] false "INFO" "runtime_config.json".

(* ================================================================== *)
(** ** Facts about the Python primitives *)
(* ================================================================== *)

Module PyFacts.

Lemma str_in_In (s : string) (l : list string) :
  str_in s l = true <-> In s l.
Proof.
  unfold str_in. rewrite existsb_exists. split.
  - intros [x [Hin Heq]]. apply String.eqb_eq in Heq. now subst.
  - intros Hin. exists s. split; [assumption | apply String.eqb_refl].
Qed.

Lemma str_in_not_In (s : string) (l : list string) :
  str_in s l = false <-> ~ In s l.
Proof.
  rewrite <- str_in_In. destruct (str_in s l); split; intros; congruence.
Qed.

Lemma any_false_nil {A : Type} (l : list A) :
  any (fun _ : A => false) l = false.
Proof. induction l as [|a l IH]; simpl; auto. Qed.

End PyFacts.

(* ================================================================== *)
(** ** The registry built by [__init__] *)
(* ================================================================== *)

Module Registry.

Import MCPHTTPServer.

(** With no tag excluded, a tool is retained iff its name is not
    excluded. *)
Lemma retained_no_tags (excl : list string) (tool : Tool.t) :
  retained excl [] tool = negb (str_in (Tool.name tool) excl).
Proof.
  unfold retained. simpl.
  rewrite PyFacts.any_false_nil. apply andb_true_r.
Qed.

(** With ["write"] excluded, a tool is retained iff its name is not
    excluded and it does not carry the tag. *)
Lemma retained_write_tag (excl : list string) (tool : Tool.t) :
  retained excl ["write"] tool
  = negb (str_in (Tool.name tool) excl) && negb (str_in "write" (Tool.tags tool)).
Proof.
  unfold retained. f_equal. f_equal.
  unfold any, str_in. simpl.
  induction (Tool.tags tool) as [|tag tags IH]; simpl; [reflexivity|].
  rewrite IH, orb_false_r, String.eqb_sym. reflexivity.
Qed.

Lemma retained_spec (allow_write : bool) (excl : list string) (tool : Tool.t) :
  retained excl (exclude_tags allow_write) tool = true
  <-> ~ In (Tool.name tool) excl
      /\ (allow_write = true \/ ~ In "write"%string (Tool.tags tool)).
Proof.
  destruct allow_write; cbn [exclude_tags].
  - rewrite retained_no_tags, negb_true_iff, PyFacts.str_in_not_In. tauto.
  - rewrite retained_write_tag, andb_true_iff, !negb_true_iff,
      !PyFacts.str_in_not_In.
    split; [intros [Hn Hw]; auto | intros [Hn [Hw|Hw]]; [discriminate | auto]].
Qed.

Lemma allowed_tools_filter ca allow_write excl ejr ec :
  allowed_tools (init ca allow_write excl ejr ec)
  = filter (Spec.spec_allows allow_write (or_empty excl)) Catalog.full_catalog.
Proof.
  unfold init, Spec.spec_allows. cbn [allowed_tools].
  destruct allow_write; cbn [exclude_tags orb].
  - apply filter_ext. intros tool. rewrite retained_no_tags.
    now rewrite andb_true_r.
  - rewrite app_nil_r. unfold Catalog.full_catalog. rewrite filter_app.
    replace (filter _ Catalog.write_tools) with (@nil Tool.t).
    + rewrite app_nil_r. apply filter_ext. intros tool.
      apply retained_write_tag.
    + cbn. now rewrite !andb_false_r.
Qed.

Lemma spec_allows_spec allow_write excl tool :
  Spec.spec_allows allow_write excl tool = true
  <-> ~ In (Tool.name tool) excl
      /\ (allow_write = true \/ ~ In "write" (Tool.tags tool)).
Proof.
  unfold Spec.spec_allows. rewrite andb_true_iff, negb_true_iff, orb_true_iff,
    negb_true_iff, !PyFacts.str_in_not_In. reflexivity.
Qed.

(** Not one of the given strings. *)
Ltac not_among :=
  let Hin := fresh "Hin" in
  intros Hin; cbn in Hin;
  repeat (destruct Hin as [Hin|Hin]; [discriminate Hin|]);
  exact Hin.

(** C1.  For every configuration [(allow_write, exclude_tools)] the registry
    [allowed_tools] built by [__init__] holds a descriptor named [X] iff [X]
    names a descriptor of the full catalog (whose names are pairwise
    distinct), [X] is not in [exclude_tools], and [allow_write] is true or
    that descriptor is not tagged ["write"]; the same holds with
    [self.all_tools], the catalog the constructor assembles, in place of
    the full catalog.  The registry is the full catalog filtered by that
    condition, so it keeps the declaration order.  With [allow_write=false]
    and no exclusion it is the six read-only tools; with [allow_write=true]
    and [exclude_tools=["create_table"]] it is those six followed by
    [write_query], seven entries, without [create_table]. *)
Theorem registry_membership :
  NoDup (map Tool.name Catalog.full_catalog)
  /\ (forall ca allow_write excl ejr ec,
         let server := init ca allow_write excl ejr ec in
         (forall X : string,
             (exists tool, In tool (allowed_tools server) /\ Tool.name tool = X)
             <-> (exists tool,
                     In tool Catalog.full_catalog /\ Tool.name tool = X
                     /\ ~ In X (exclude_tools server)
                     /\ (allow_write = true
                         \/ ~ In "write"%string (Tool.tags tool))))
         /\ (forall X : string,
                (exists tool, In tool (allowed_tools server) /\ Tool.name tool = X)
                <-> (exists tool,
                        In tool (all_tools server) /\ Tool.name tool = X
                        /\ ~ In X (exclude_tools server)
                        /\ (allow_write = true
                            \/ ~ In "write"%string (Tool.tags tool))))
         /\ allowed_tools server
            = filter (Spec.spec_allows allow_write (exclude_tools server))
                Catalog.full_catalog)
  /\ (forall ca ejr ec,
         let server := init ca false (Some []) ejr ec in
         allowed_tools (init ca false None ejr ec) = allowed_tools server
         /\ map Tool.name (allowed_tools server)
            = ["list_databases"; "list_schemas"; "list_tables"; "describe_table";
               "read_query"; "append_insight"]%string
         /\ Forall (fun tool => ~ In "write"%string (Tool.tags tool))
              (allowed_tools server))
  /\ (forall ca ejr ec,
         let server := init ca true (Some ["create_table"%string]) ejr ec in
         map Tool.name (allowed_tools server)
         = ["list_databases"; "list_schemas"; "list_tables"; "describe_table";
            "read_query"; "append_insight"; "write_query"]%string
         /\ List.length (allowed_tools server) = 7%nat
         /\ ~ In "create_table"%string (map Tool.name (allowed_tools server))).
Proof.
  split; [|split; [|split]].
  - cbn. repeat (constructor; [not_among|]). constructor.
  - intros ca allow_write excl ejr ec server.
    assert (Hfilter : allowed_tools server
                      = filter (Spec.spec_allows allow_write (exclude_tools server))
                          Catalog.full_catalog)
      by apply allowed_tools_filter.
    split; [|split; [|exact Hfilter]].
    + intros X. rewrite Hfilter. split.
      * intros [tool [Hin Hname]]. apply filter_In in Hin as [Hcat Hpol].
        apply spec_allows_spec in Hpol as [Hexcl Hwrite].
        exists tool. subst X. auto.
      * intros [tool [Hcat [Hname [Hexcl Hwrite]]]].
        exists tool. split; [|exact Hname].
        apply filter_In. split; [exact Hcat|].
        apply spec_allows_spec. subst X. auto.
    + intros X. subst server. cbn [allowed_tools all_tools exclude_tools init].
      split.
      * intros [tool [Hin Hname]]. apply filter_In in Hin as [Hall Hret].
        apply retained_spec in Hret as [Hexcl Hwrite].
        exists tool. subst X. auto.
      * intros [tool [Hall [Hname [Hexcl Hwrite]]]].
        exists tool. split; [|exact Hname].
        apply filter_In. split; [exact Hall|].
        apply retained_spec. subst X. auto.
  - intros ca ejr ec server. subst server. cbn.
    split; [reflexivity|split; [reflexivity|]].
    repeat (constructor; [not_among|]). constructor.
  - intros ca ejr ec server. subst server. cbn.
    split; [reflexivity|split; [reflexivity|not_among]].
Qed.

End Registry.

(* ================================================================== *)
(** ** The dispatch gateway [MCPHTTPServer.call_tool] *)
(* ================================================================== *)

Module Gateway.

Import MCPHTTPServer.

Section Dispatch.

Context {H : Handlers}.

(** [next] finds nothing iff no descriptor of the list has the name. *)
Lemma next_handler_None (tools : list Tool.t) (name : string) :
  next_handler tools name = None
  <-> forall tool, In tool tools -> Tool.name tool <> name.
Proof.
  induction tools as [|tool tools IH]; simpl.
  - split; [intros _ ? [] | reflexivity].
  - destruct (String.eqb_spec (Tool.name tool) name) as [Heq|Hne].
    + split; [discriminate|]. intros Hall. now destruct (Hall tool (or_introl eq_refl)).
    + rewrite IH. split.
      * intros Hall t [<-|Hin]; auto.
      * intros Hall t Hin. apply Hall. now right.
Qed.

(** What [next] finds is the handler of a descriptor with that name. *)
Lemma next_handler_Some (tools : list Tool.t) (name : string) (handler : Handler) :
  next_handler tools name = Some handler ->
  exists tool, In tool tools /\ Tool.name tool = name /\ Tool.handler tool = handler.
Proof.
  induction tools as [|tool tools IH]; simpl; [discriminate|].
  destruct (String.eqb_spec (Tool.name tool) name) as [Heq|Hne].
  - intros [= <-]. exists tool. auto.
  - intros Hfind. destruct (IH Hfind) as [t [Hin Ht]]. exists t. auto.
Qed.

(** The first guard of [call_tool]. *)
Lemma call_tool_excluded (self : t) (name : string) (arguments : json) (w : World) :
  In name (exclude_tools self) ->
  call_tool self name arguments w
  = mkRun (Returned (error_dict
                       ("Tool " ++ name ++ " is excluded from this data connection")))
          [] w.
Proof.
  intros Hin. unfold call_tool.
  now rewrite (proj2 (PyFacts.str_in_In name (exclude_tools self)) Hin).
Qed.

(** The second guard of [call_tool]. *)
Lemma call_tool_unknown (self : t) (name : string) (arguments : json) (w : World) :
  ~ In name (exclude_tools self) ->
  next_handler (allowed_tools self) name = None ->
  call_tool self name arguments w
  = mkRun (Returned (error_dict ("Unknown tool: " ++ name))) [] w.
Proof.
  intros Hnot Hnone. unfold call_tool.
  rewrite (proj2 (PyFacts.str_in_not_In name (exclude_tools self)) Hnot).
  now rewrite Hnone.
Qed.

(** Past both guards, [call_tool] makes exactly one handler call and
    passes its outcome through the [try] statement. *)
Lemma call_tool_resolved (self : t) (name : string) (arguments : json) (w : World)
  (handler : Handler) (result : HandlerOutcome) (w' : World) :
  ~ In name (exclude_tools self) ->
  next_handler (allowed_tools self) name = Some handler ->
  run_handler handler (handler_args self name arguments) w = (result, w') ->
  call_tool self name arguments w
  = mkRun (try_except_Exception result)
          [(handler, handler_args self name arguments)] w'.
Proof.
  intros Hnot Hsome Hrun. unfold call_tool.
  rewrite (proj2 (PyFacts.str_in_not_In name (exclude_tools self)) Hnot).
  now rewrite Hsome, Hrun.
Qed.

(** The three ways through [call_tool]. *)
Lemma call_tool_cases (self : t) (name : string) (arguments : json) (w : World) :
  (In name (exclude_tools self)
   /\ call_tool self name arguments w
      = mkRun (Returned (error_dict
                 ("Tool " ++ name ++ " is excluded from this data connection")))
              [] w)
  \/ (~ In name (exclude_tools self)
      /\ next_handler (allowed_tools self) name = None
      /\ call_tool self name arguments w
         = mkRun (Returned (error_dict ("Unknown tool: " ++ name))) [] w)
  \/ (exists handler result w',
         ~ In name (exclude_tools self)
         /\ next_handler (allowed_tools self) name = Some handler
         /\ run_handler handler (handler_args self name arguments) w = (result, w')
         /\ call_tool self name arguments w
            = mkRun (try_except_Exception result)
                    [(handler, handler_args self name arguments)] w').
Proof.
  destruct (in_dec string_dec name (exclude_tools self)) as [Hin|Hnot].
  - left. split; [exact Hin|]. now apply call_tool_excluded.
  - right. destruct (next_handler (allowed_tools self) name) as [handler|] eqn:Hfind.
    + right.
      destruct (run_handler handler (handler_args self name arguments) w)
        as [result w'] eqn:Hrun.
      exists handler, result, w'.
      repeat split; auto. now apply call_tool_resolved.
    + left. repeat split; auto. now apply call_tool_unknown.
Qed.

(** The dict built from a handler result is a success body. *)
Lemma to_json_result_shape (result : HandlerResult) :
  Spec.result_string (to_json_result result)
  \/ Spec.result_strings (to_json_result result).
Proof.
  destruct result as [items|s]; simpl.
  - right. exists (map item_text items). now rewrite map_map.
  - left. now exists s.
Qed.

Lemma to_json_result_no_error (result : HandlerResult) :
  get "error" (to_json_result result) = None.
Proof. now destruct result. Qed.

End Dispatch.

Section Claims.

Context {H : Handlers}.

(** In a read-only registry no descriptor is named [write_query]. *)
Lemma write_query_filtered ca excl ejr ec :
  next_handler (allowed_tools (init ca false excl ejr ec)) "write_query" = None.
Proof.
  apply next_handler_None. intros tool Hin Hname.
  rewrite Registry.allowed_tools_filter in Hin.
  apply filter_In in Hin as [Hcat Hpol].
  apply Registry.spec_allows_spec in Hpol as [_ [Hw|Hw]]; [discriminate|].
  apply Hw. cbn in Hcat.
  repeat (destruct Hcat as [<-|Hcat]; [first [discriminate Hname | now left]|]).
  destruct Hcat.
Qed.

(** C2.  For every name in [exclude_tools], whatever the registry holds,
    [call_tool] returns exactly
    [{"error": "Tool {name} is excluded from this data connection"}],
    calls no handler and leaves the world as it was. *)
Theorem excluded_tool_short_circuit
  (self : t) (name : string) (arguments : json) (w : World) :
  In name (exclude_tools self) ->
  call_tool self name arguments w
  = {| outcome :=
         Returned
           (JObj [("error",
                   JStr ("Tool " ++ name ++ " is excluded from this data connection"))]);
       calls := [];
       world_after := w |}.
Proof.
  intros Hin. unfold call_tool.
  apply PyFacts.str_in_In in Hin. rewrite Hin. reflexivity.
Qed.

(** C3.  For every name that is not in [exclude_tools] and that no
    descriptor of the registry carries, [call_tool] returns exactly
    [{"error": "Unknown tool: {name}"}], calls no handler and leaves the
    world as it was.  In particular a server built with
    [allow_write=false] answers [write_query] with
    [{"error": "Unknown tool: write_query"}]. *)
Theorem unknown_tool_error :
  (forall (self : t) (name : string) (arguments : json) (w : World),
      ~ In name (exclude_tools self) ->
      (forall tool, In tool (allowed_tools self) -> Tool.name tool <> name) ->
      call_tool self name arguments w
      = {| outcome := Returned (JObj [("error", JStr ("Unknown tool: " ++ name))]);
           calls := [];
           world_after := w |})
  /\ (forall ca excl ejr ec (arguments : json) (w : World),
         ~ In "write_query"%string (or_empty excl) ->
         call_tool (init ca false excl ejr ec) "write_query" arguments w
         = {| outcome := Returned (JObj [("error", JStr "Unknown tool: write_query")]);
              calls := [];
              world_after := w |}).
Proof.
  split.
  - intros self name arguments w Hnot Habsent.
    apply call_tool_unknown; [exact Hnot|]. now apply next_handler_None.
  - intros ca excl ejr ec arguments w Hnot.
    apply (call_tool_unknown (init ca false excl ejr ec) "write_query");
      [exact Hnot | apply write_query_filtered].
Qed.

(** C4, as the code has it.  When a resolved handler raises an instance
    of [Exception], [call_tool] returns [{"error": str(e)}]; every
    invocation either returns a success or an error body, or lets through
    an object that the handler raised and that is not an instance of
    [Exception]; and whenever a resolved handler raises such an object,
    [call_tool] does let it through. *)
Theorem handler_exception_caught :
  (forall (self : t) (name : string) (arguments : json) (w : World)
          (handler : Handler) (e : exc) (w' : World),
      ~ In name (exclude_tools self) ->
      next_handler (allowed_tools self) name = Some handler ->
      run_handler handler (handler_args self name arguments) w = (Raises e, w') ->
      isinstance_Exception e = true ->
      outcome (call_tool self name arguments w)
      = Returned (JObj [("error", JStr (exc_str e))]))
  /\ (forall (self : t) (name : string) (arguments : json) (w : World),
         match outcome (call_tool self name arguments w) with
         | Returned d =>
             Spec.result_string d \/ Spec.result_strings d \/ Spec.error_string d
         | Propagated e =>
             isinstance_Exception e = false
             /\ exists handler w',
                 next_handler (allowed_tools self) name = Some handler
                 /\ run_handler handler (handler_args self name arguments) w
                    = (Raises e, w')
         end)
  /\ (forall (self : t) (name : string) (arguments : json) (w : World)
             (handler : Handler) (e : exc) (w' : World),
         ~ In name (exclude_tools self) ->
         next_handler (allowed_tools self) name = Some handler ->
         run_handler handler (handler_args self name arguments) w = (Raises e, w') ->
         isinstance_Exception e = false ->
         outcome (call_tool self name arguments w) = Propagated e).
Proof.
  split; [|split].
  - intros self name arguments w handler e w' Hnot Hsome Hrun Hexc.
    rewrite (call_tool_resolved self name arguments w handler _ w' Hnot Hsome Hrun).
    cbn. now rewrite Hexc.
  - intros self name arguments w.
    destruct (call_tool_cases self name arguments w)
      as [[_ ->]|[[_ [_ ->]]|[handler [result [w' [_ [Hsome [Hrun ->]]]]]]]]; cbn.
    + right. right. eexists. reflexivity.
    + right. right. eexists. reflexivity.
    + destruct result as [result|e]; cbn.
      * destruct (to_json_result_shape result); auto.
      * destruct (isinstance_Exception e) eqn:Hexc.
        -- right. right. eexists. reflexivity.
        -- split; [exact Hexc|]. now exists handler, w'.
  - intros self name arguments w handler e w' Hnot Hsome Hrun Hexc.
    rewrite (call_tool_resolved self name arguments w handler _ w' Hnot Hsome Hrun).
    cbn. now rewrite Hexc.
Qed.

(** C5.  When a resolved handler returns, [call_tool] returns
    [{"result": [t_1, ..., t_n]}] for a list, each [t_i] being the
    element's [text] when it has one and [str] of the element otherwise,
    and [{"result": str(result)}] for anything else.  Hence the body the
    invocation endpoint returns is always [{result: string}],
    [{result: [string, ...]}] or [{error: string}]. *)
Theorem result_normalization :
  (forall (self : t) (name : string) (arguments : json) (w : World)
          (handler : Handler) (result : HandlerResult) (w' : World),
      ~ In name (exclude_tools self) ->
      next_handler (allowed_tools self) name = Some handler ->
      run_handler handler (handler_args self name arguments) w
      = (Returns result, w') ->
      outcome (call_tool self name arguments w)
      = Returned
          match result with
          | PyList items =>
              JObj [("result",
                     JList (map (fun item =>
                                   JStr match text item with
                                        | Some s => s
                                        | None => content_str item
                                        end)
                                items))]
          | PyOther s => JObj [("result", JStr s)]
          end)
  /\ (forall (mcp_server : option t) (tool_name : string) (arguments : json)
             (w : World) (body : json),
         App.response (App.call_tool mcp_server tool_name arguments w)
         = App.Body body ->
         Spec.result_string body \/ Spec.result_strings body
         \/ Spec.error_string body).
Proof.
  split.
  - intros self name arguments w handler result w' Hnot Hsome Hrun.
    rewrite (call_tool_resolved self name arguments w handler _ w' Hnot Hsome Hrun).
    now destruct result.
  - intros [server|] tool_name arguments w body; cbn; [|discriminate].
    destruct (call_tool_cases server tool_name arguments w)
      as [[_ ->]|[[_ [_ ->]]|[handler [result [w' [_ [_ [_ ->]]]]]]]]; cbn.
    + intros [= <-]. right. right. eexists. reflexivity.
    + intros [= <-]. right. right. eexists. reflexivity.
    + destruct result as [result|e]; cbn.
      * intros [= <-]. destruct (to_json_result_shape result); auto.
      * destruct (isinstance_Exception e); [|discriminate].
        intros [= <-]. right. right. eexists. reflexivity.
Qed.

(** C6.  For every resolved tool [call_tool] makes one handler call, with
    [(arguments, db, write_detector, allow_write, None)] and the keyword
    [exclude_json_results]; the keyword [exclusion_config] is passed
    exactly when the name is [list_databases], [list_schemas] or
    [list_tables], and the world is the one that call leaves. *)
Theorem calling_convention
  (self : t) (name : string) (arguments : json) (w : World) (handler : Handler) :
  ~ In name (exclude_tools self) ->
  next_handler (allowed_tools self) name = Some handler ->
  exists args : HandlerArgs,
    calls (call_tool self name arguments w) = [(handler, args)]
    /\ world_after (call_tool self name arguments w)
       = snd (run_handler handler args w)
    /\ arg_arguments args = arguments
    /\ arg_db args = db self
    /\ arg_write_detector args = write_detector self
    /\ arg_allow_write args = allow_write self
    /\ arg_server args = None
    /\ kw_exclude_json_results args = Some (exclude_json_results self)
    /\ (In name ["list_databases"; "list_schemas"; "list_tables"]%string ->
        kw_exclusion_config args = Some (exclusion_config self))
    /\ (~ In name ["list_databases"; "list_schemas"; "list_tables"]%string ->
        kw_exclusion_config args = None).
Proof.
  intros Hnot Hsome.
  destruct (run_handler handler (handler_args self name arguments) w)
    as [result w'] eqn:Hrun.
  exists (handler_args self name arguments).
  rewrite (call_tool_resolved self name arguments w handler result w' Hnot Hsome Hrun).
  rewrite Hrun. cbn [calls world_after snd].
  unfold handler_args.
  destruct (str_in name enumeration_tools) eqn:Henum;
    repeat split; try reflexivity; intros Hin.
  - apply PyFacts.str_in_In in Henum. contradiction.
  - apply PyFacts.str_in_not_In in Henum. contradiction.
Qed.

(** C10.  When a resolved handler returns the empty list, [call_tool]
    returns the success body [{"result": []}]; and a returned dict has an
    ["error"] key only when the name is excluded, or no descriptor of the
    registry carries it, or the resolved handler raised. *)
Theorem empty_list_is_success :
  (forall (self : t) (name : string) (arguments : json) (w : World)
          (handler : Handler) (w' : World),
      ~ In name (exclude_tools self) ->
      next_handler (allowed_tools self) name = Some handler ->
      run_handler handler (handler_args self name arguments) w
      = (Returns (PyList []), w') ->
      outcome (call_tool self name arguments w)
      = Returned (JObj [("result", JList [])]))
  /\ (forall (self : t) (name : string) (arguments : json) (w : World) (d : json),
         outcome (call_tool self name arguments w) = Returned d ->
         get "error" d <> None ->
         In name (exclude_tools self)
         \/ (forall tool, In tool (allowed_tools self) -> Tool.name tool <> name)
         \/ (exists handler e w',
                next_handler (allowed_tools self) name = Some handler
                /\ run_handler handler (handler_args self name arguments) w
                   = (Raises e, w'))).
Proof.
  split.
  - intros self name arguments w handler w' Hnot Hsome Hrun.
    now rewrite (call_tool_resolved self name arguments w handler _ w' Hnot Hsome Hrun).
  - intros self name arguments w d.
    destruct (call_tool_cases self name arguments w)
      as [[Hin _]|[[_ [Hnone _]]|[handler [result [w' [_ [Hsome [Hrun ->]]]]]]]].
    + intros _ _. now left.
    + intros _ _. right. left. now apply next_handler_None.
    + destruct result as [result|e]; cbn.
      * intros [= <-] Herr. now rewrite to_json_result_no_error in Herr.
      * intros _ _. right. right. now exists handler, e, w'.
Qed.

End Claims.

(** Witness of C2: [create_table] on a server that excludes it, with stub
    handlers that would log their run. *)
Lemma excluded_tool_short_circuit_witness :
  In "create_table"%string (exclude_tools write_server)
  /\ call_tool (H := stub_handlers two_items) write_server "create_table" JNull nothing_ran
     = mkRun (H := stub_handlers two_items)
         (Returned
            (JObj [("error",
                    JStr "Tool create_table is excluded from this data connection")]))
         [] nothing_ran.
Proof.
  assert (Hin : In "create_table"%string (exclude_tools write_server))
    by (left; reflexivity).
  split; [exact Hin|].
  exact (excluded_tool_short_circuit (H := stub_handlers two_items)
           write_server "create_table" JNull nothing_ran Hin).
Defined.

(** Witness of C3: [write_query] on the read-only server. *)
Lemma unknown_tool_error_witness :
  ~ In "write_query"%string (or_empty None)
  /\ call_tool (H := stub_handlers two_items) read_only_server "write_query" JNull nothing_ran
     = mkRun (H := stub_handlers two_items)
         (Returned (JObj [("error", JStr "Unknown tool: write_query")]))
         [] nothing_ran.
Proof.
  assert (Hnot : ~ In "write_query"%string (or_empty None))
    by (intros Hin; exact Hin).
  split; [exact Hnot|].
  exact (proj2 (unknown_tool_error (H := stub_handlers two_items))
           (JObj []) None false JNull JNull nothing_ran Hnot).
Defined.

(** Witness of C4: a handler that raises an ordinary exception. *)
Lemma handler_exception_caught_witness :
  outcome (call_tool (H := stub_handlers failing) read_only_server "read_query"
             JNull nothing_ran)
  = Returned (JObj [("error", JStr "connection lost")]).
Proof.
  refine (proj1 (handler_exception_caught (H := stub_handlers failing))
            read_only_server "read_query"%string JNull nothing_ran
            handle_read_query (mk_exc ExceptionClass "connection lost")
            [handle_read_query] _ eq_refl eq_refl eq_refl).
  intros Hin. exact Hin.
Defined.

(** Counterexample to C4 as worded: a handler cancelled while it is
    awaited raises [asyncio.CancelledError], which [except Exception] does
    not catch; [call_tool] returns nothing and the object reaches the
    caller. *)
Lemma handler_fault_propagates :
  outcome (call_tool (H := stub_handlers cancelled) read_only_server "read_query"
             JNull nothing_ran)
  = Propagated (mk_exc BaseExceptionOnly "")
  /\ ~ Spec.every_handler_fault_is_caught.
Proof.
  split; [reflexivity|].
  intros Hclaim.
  specialize (Hclaim (stub_handlers cancelled) read_only_server
                "read_query"%string JNull nothing_ran handle_read_query
                (mk_exc BaseExceptionOnly "") [handle_read_query]).
  cbn in Hclaim.
  assert (Hbad : Propagated (mk_exc BaseExceptionOnly "")
                 = Returned (JObj [("error", JStr "")])).
  { apply Hclaim; [intros Hin; exact Hin | reflexivity | reflexivity]. }
  discriminate Hbad.
Qed.

(** Witness of C5: a handler that returns an item with a [text] and an
    item without. *)
Lemma result_normalization_witness :
  outcome (call_tool (H := stub_handlers two_items) read_only_server
             "list_databases" JNull nothing_ran)
  = Returned (JObj [("result", JList [JStr "DB1"; JStr "ImageContent()"])]).
Proof.
  refine (proj1 (result_normalization (H := stub_handlers two_items))
            read_only_server "list_databases"%string JNull nothing_ran
            handle_list_databases
            (PyList [mkContent (Some "DB1"%string) "TextContent(text='DB1')";
                     mkContent None "ImageContent()"])
            [handle_list_databases] _ eq_refl eq_refl).
  intros Hin. exact Hin.
Defined.

(** Witness of C6: [list_schemas] on the read-only server. *)
Lemma calling_convention_witness :
  exists args : HandlerArgs,
    calls (call_tool (H := stub_handlers two_items) read_only_server
             "list_schemas" (JObj [("database", JStr "SALES")]) nothing_ran)
    = [(handle_list_schemas, args)]
    /\ kw_exclusion_config args = Some default_exclusion_config
    /\ kw_exclude_json_results args = Some false
    /\ arg_server args = None.
Proof.
  destruct (calling_convention (H := stub_handlers two_items) read_only_server
              "list_schemas"%string (JObj [("database", JStr "SALES")]) nothing_ran
              handle_list_schemas (fun Hin => Hin) eq_refl)
    as [args [Hcalls [_ [_ [_ [_ [_ [Hserver [Hjson [Henum _]]]]]]]]]].
  exists args. split; [exact Hcalls|]. split; [|split; [exact Hjson|exact Hserver]].
  apply Henum. right. left. reflexivity.
Defined.

(** Witness of C10: a handler that returns the empty list. *)
Lemma empty_list_is_success_witness :
  outcome (call_tool (H := stub_handlers empty_list) read_only_server
             "read_query" JNull nothing_ran)
  = Returned (JObj [("result", JList [])]).
Proof.
  refine (proj1 (empty_list_is_success (H := stub_handlers empty_list))
            read_only_server "read_query"%string JNull nothing_ran
            handle_read_query [handle_read_query] _ eq_refl eq_refl).
  intros Hin. exact Hin.
Defined.

End Gateway.

(* ================================================================== *)
(** ** Tool enumeration [get_tools_list] *)
(* ================================================================== *)

Module Listing.

Import MCPHTTPServer.

(** C7.  [get_tools_list] returns one entry per descriptor of the
    registry, in the order of the registry; an entry is a dict with the
    keys [name], [description] and [input_schema] of its descriptor and
    nothing else, so no [handler] and no [tags]; and the names listed are
    the names of the registry, in order. *)
Theorem tools_list_projection :
  forall self : t,
    List.length (get_tools_list self) = List.length (allowed_tools self)
    /\ Forall2
         (fun tool entry =>
            keys entry = ["name"; "description"; "input_schema"]%string
            /\ get "name" entry = Some (JStr (Tool.name tool))
            /\ get "description" entry = Some (JStr (Tool.description tool))
            /\ get "input_schema" entry = Some (Tool.input_schema tool)
            /\ get "handler" entry = None
            /\ get "tags" entry = None)
         (allowed_tools self) (get_tools_list self)
    /\ map (get "name") (get_tools_list self)
       = map (fun tool => Some (JStr (Tool.name tool))) (allowed_tools self).
Proof.
  intros self. unfold get_tools_list.
  induction (allowed_tools self) as [|tool tools [IHlen [IHall IHnames]]].
  - repeat split. constructor.
  - split; [|split].
    + simpl. now rewrite IHlen.
    + constructor; [|exact IHall]. repeat split.
    + cbn [map]. f_equal. exact IHnames.
Qed.

End Listing.

(* ================================================================== *)
(** ** The initialisation guard of the endpoints *)
(* ================================================================== *)

Module Surface.

Section Guard.

Context {H : Handlers}.

(** C9, as the code has it.  While the global [mcp_server] is [None],
    [GET /tools], and [POST /tools/{tool_name}] with a body that passes
    validation (none, [null] or a JSON object), raise [HTTPException] with
    status 500 and the detail "Server not initialized"; no handler is
    called and the world is untouched.  A [POST] whose body is any other
    JSON value is refused with 422 before the guard is reached, whatever
    the global holds.  While the global holds a server neither endpoint
    raises an [HTTPException].  A run of [initialize_server] that returns
    leaves a server in the global; one that raises leaves the global as it
    was. *)
Theorem server_not_initialized :
  App.list_tools None = App.HTTPException 500 "Server not initialized"
  /\ (forall (tool_name : string) (body : App.RequestBody) (w : World),
         body = App.NoBody \/ body = App.JsonBody JNull
         \/ (exists fields, body = App.JsonBody (JObj fields)) ->
         App.post_tools None tool_name body w
         = App.Handled
             (App.mkEndpointRun
                (App.HTTPException 500 "Server not initialized") [] w))
  /\ (forall (mcp_server : option MCPHTTPServer.t) (tool_name : string)
             (body : App.RequestBody) (w : World),
         ~ (body = App.NoBody \/ body = App.JsonBody JNull
            \/ (exists fields, body = App.JsonBody (JObj fields))) ->
         App.post_tools mcp_server tool_name body w = App.ValidationError422)
  /\ (forall server : MCPHTTPServer.t,
         App.list_tools (Some server)
         = App.Body (JObj [("tools", JList (MCPHTTPServer.get_tools_list server))]))
  /\ (forall (server : MCPHTTPServer.t) (tool_name : string)
             (body : App.RequestBody) (w : World) (run : App.EndpointRun)
             (status_code : nat) (detail : string),
         App.post_tools (Some server) tool_name body w = App.Handled run ->
         App.response run <> App.HTTPException status_code detail)
  /\ (forall (db_started : option exc) (before : option MCPHTTPServer.t)
             ca allow_write excl ejr ec,
         match App.initialize_server_run db_started before ca allow_write excl
                 ejr ec with
         | (after, None) => db_started = None /\ exists server, after = Some server
         | (after, Some e) => db_started = Some e /\ after = before
         end).
Proof.
  split; [reflexivity|]. split; [|split; [|split; [|split]]].
  - intros tool_name body w [->|[->|[fields ->]]]; reflexivity.
  - intros mcp_server tool_name body w Hbad. unfold App.post_tools.
    destruct body as [|[ | | | | |fields]]; try reflexivity;
      exfalso; apply Hbad; eauto.
  - reflexivity.
  - intros server tool_name body w run status_code detail.
    unfold App.post_tools.
    destruct (App.validate_arguments body) as [arguments|]; [|discriminate].
    intros [= <-]. cbn.
    destruct (MCPHTTPServer.outcome _); discriminate.
  - intros [e|] before ca allow_write excl ejr ec; cbn.
    + split; reflexivity.
    + split; [reflexivity|]. eexists. reflexivity.
Qed.

End Guard.

(** Witness of C9 as amended: a request with an object body before the
    server is initialised. *)
Lemma server_not_initialized_witness :
  App.post_tools (H := stub_handlers two_items) None "read_query"
    (App.JsonBody (JObj [("query", JStr "SELECT 1")])) nothing_ran
  = App.Handled
      (App.mkEndpointRun (H := stub_handlers two_items)
         (App.HTTPException 500 "Server not initialized") [] nothing_ran).
Proof.
  refine (proj1 (proj2 (server_not_initialized (H := stub_handlers two_items)))
            "read_query"%string
            (App.JsonBody (JObj [("query", JStr "SELECT 1")])) nothing_ran _).
  right. right. exists [("query", JStr "SELECT 1")]. reflexivity.
Defined.

(** Counterexample to C9 as worded: before the server is initialised, a
    [POST] whose body is the JSON list [["x"]] is answered with 422 by the
    validation of [arguments: dict], not with the fault 500; the endpoint
    function and its guard are not reached. *)
Lemma non_object_body_is_refused :
  App.post_tools (H := stub_handlers two_items) None "read_query"
    (App.JsonBody (JList [JStr "x"])) nothing_ran
  = App.ValidationError422
  /\ ~ Spec.uninitialized_request_gets_500.
Proof.
  split; [reflexivity|].
  intros Hclaim.
  destruct (Hclaim (stub_handlers two_items) "read_query"%string
              (App.JsonBody (JList [JStr "x"])) nothing_ran)
    as [run [Hserved _]].
  discriminate Hserved.
Qed.

End Surface.

(* ================================================================== *)
(** ** The heartbeat stream of [GET /sse] *)
(* ================================================================== *)

Module Heartbeat.

Import Sse.

(** In the ideal loop a sleep lasts exactly as long as asked and a
    suspended generator is resumed at once. *)
Lemma ideal_loop_laws : EventLoopLaws ideal_loop.
Proof.
  split; intros; cbn; apply Qle_refl.
Qed.

Lemma chain_weaken (R R' : Emission -> Emission -> Prop) :
  (forall p q, R p q -> R' p q) ->
  forall items prev, chain R prev items -> chain R' prev items.
Proof.
  intros Himp. induction items as [|item rest IH]; intros prev; simpl; [trivial|].
  intros [Hhead Hrest]. split; auto.
Qed.

Section Stream.

Context {L : EventLoop} {laws : EventLoopLaws L}.

(** Resumed inside the loop, the generator sleeps 30 seconds before each
    ping it yields. *)
Lemma drain_loop (n : nat) :
  forall (e : Env) (prev : Emission),
    emitted_at prev <= time e ->
    List.length (drain n AtPing e) = n
    /\ Forall (ping_after [30]) (drain n AtPing e)
    /\ chain (follows 30) prev (drain n AtPing e).
Proof.
  induction n as [|n IH]; intros e prev Hprev; cbn [drain anext].
  - repeat split. constructor.
  - set (e' := sleep 30 e).
    set (item := mkEmission (Data (ping_event (time e'))) [30] (time e')).
    assert (Hnext : emitted_at item <= time (resume e'))
      by (cbn; apply resume_later).
    destruct (IH (resume e') item Hnext) as [Hlen [Hall Hchain]].
    split; [|split].
    + cbn [List.length]. now rewrite Hlen.
    + constructor; [|exact Hall]. split; reflexivity.
    + cbn [chain]. split; [|exact Hchain].
      unfold follows. cbn [emitted_at item].
      pose proof (sleep_lasts 30 e) as Hsleep. fold e' in Hsleep. lra.
Qed.

Lemma ping_follows_ordered (p q : Emission) :
  chunk p = Data (ping_event (emitted_at p)) ->
  chunk q = Data (ping_event (emitted_at q)) ->
  follows 30 p q -> timestamps_ordered p q.
Proof.
  intros Hp Hq Hgap. exists (emitted_at p), (emitted_at q).
  rewrite Hp, Hq. repeat split. unfold follows in Hgap. lra.
Qed.

Lemma spaced_pings_ordered (items : list Emission) :
  forall prev : Emission,
    chunk prev = Data (ping_event (emitted_at prev)) ->
    Forall (ping_after [30]) items ->
    chain (follows 30) prev items ->
    chain timestamps_ordered prev items.
Proof.
  induction items as [|item rest IH]; intros prev Hprev Hall Hchain;
    cbn [chain]; [trivial|].
  destruct Hchain as [Hgap Hchain].
  inversion Hall as [|? ? [Hitem _] Hrest]; subst.
  split.
  - now apply ping_follows_ordered.
  - now apply IH.
Qed.

End Stream.

(** C8, as the code has it.  Whatever the event loop, the stream starts
    with the one [connection] event; the second item is the first ping,
    yielded as soon as the generator is resumed, with no sleep before it;
    every later item is a ping yielded after one [asyncio.sleep(30)], at
    least 30 seconds after the ping before it; each ping carries the clock
    reading at which it was yielded, so timestamps never decrease. *)
Theorem heartbeat_stream
  (L : EventLoop) (laws : EventLoopLaws L) (e : Env) (n : nat) :
  exists (first_ping : Emission) (later : list Emission),
    drain (S (S n)) event_stream e
    = mkEmission (Data connection_event) [] (time e) :: first_ping :: later
    /\ ping_after [] first_ping
    /\ emitted_at first_ping = time (resume e)
    /\ List.length later = n
    /\ Forall (ping_after [30]) later
    /\ chain (follows 30) first_ping later
    /\ chain timestamps_ordered first_ping later.
Proof.
  set (e1 := resume e).
  set (first_ping := mkEmission (Data (ping_event (time e1))) [] (time e1)).
  exists first_ping, (drain n AtPing (resume e1)).
  assert (Hnext : emitted_at first_ping <= time (resume e1))
    by (cbn; apply resume_later).
  destruct (drain_loop n (resume e1) first_ping Hnext) as [Hlen [Hall Hchain]].
  split; [reflexivity|]. split; [split; reflexivity|].
  split; [reflexivity|]. split; [exact Hlen|]. split; [exact Hall|].
  split; [exact Hchain|].
  now apply spaced_pings_ordered.
Qed.

(** Witness of C8 as amended: the first four items in the ideal loop. *)
Lemma heartbeat_stream_witness :
  exists (first_ping : Emission) (later : list Emission),
    drain (L := ideal_loop) 4 event_stream 0
    = mkEmission (Data connection_event) [] 0 :: first_ping :: later
    /\ ping_after [] first_ping
    /\ List.length later = 2%nat
    /\ chain (follows 30) first_ping later.
Proof.
  destruct (heartbeat_stream ideal_loop ideal_loop_laws 0 2)
    as [first_ping [later [Hdrain [Hfirst [_ [Hlen [_ [Hchain _]]]]]]]].
  exists first_ping, later. repeat split; try assumption.
  - apply Hfirst.
  - apply Hfirst.
Defined.

(** Counterexample to C8 as worded: in the ideal loop the second item,
    the first ping, is yielded at the very clock reading of the
    [connection] event, without any sleep; it is the third item that comes
    30 seconds later. *)
Lemma second_event_is_immediate :
  drain (L := ideal_loop) 3 event_stream 0
  = [mkEmission (Data connection_event) [] 0;
     mkEmission (Data (ping_event 0)) [] 0;
     mkEmission (Data (ping_event (0 + 30))) [30] (0 + 30)]
  /\ ~ Spec.second_event_after_30s.
Proof.
  split; [reflexivity|].
  intros Hclaim.
  specialize (Hclaim ideal_loop ideal_loop_laws 0
                (mkEmission (Data connection_event) [] 0)
                (mkEmission (Data (ping_event 0)) [] 0) eq_refl).
  cbn in Hclaim. lra.
Qed.

End Heartbeat.

(* ================================================================== *)
(** ** Registry invariants and what dispatch can reach *)
(* ================================================================== *)

Module Dispatch.

Import MCPHTTPServer.

(** A filtered list of descriptors keeps its keys (names, handlers)
    pairwise distinct. *)
Lemma distinct_after_filter {K : Type} (key : Tool.t -> K) (keep : Tool.t -> bool) :
  forall tools : list Tool.t,
    NoDup (map key tools) -> NoDup (map key (filter keep tools)).
Proof.
  intros tools. induction tools as [|tool tools IH]; cbn; intros Hdistinct.
  - constructor.
  - apply NoDup_cons_iff in Hdistinct as [Hfresh Hrest].
    destruct (keep tool); cbn; [|now apply IH].
    apply NoDup_cons; [|now apply IH].
    contradict Hfresh.
    apply in_map_iff in Hfresh as [other [Hkey Hother]].
    apply filter_In in Hother. rewrite <- Hkey. apply in_map. tauto.
Qed.

Lemma catalog_names_distinct : NoDup (map Tool.name Catalog.full_catalog).
Proof. cbn. repeat (constructor; [Registry.not_among|]). constructor. Qed.

Lemma catalog_handlers_distinct : NoDup (map Tool.handler Catalog.full_catalog).
Proof. cbn. repeat (constructor; [Registry.not_among|]). constructor. Qed.

(** Two descriptors of a list with pairwise distinct keys that have the
    same key are the same descriptor. *)
Lemma same_key_same_tool {K : Type} (key : Tool.t -> K) :
  forall tools : list Tool.t,
    NoDup (map key tools) ->
    forall t1 t2, In t1 tools -> In t2 tools -> key t1 = key t2 -> t1 = t2.
Proof.
  intros tools. induction tools as [|tool tools IH]; cbn; intros Hdistinct t1 t2 H1 H2 Hkey.
  - destruct H1.
  - apply NoDup_cons_iff in Hdistinct as [Hfresh Hrest].
    destruct H1 as [<-|H1], H2 as [<-|H2]; [reflexivity| | |now apply IH].
    + contradict Hfresh. rewrite Hkey. now apply in_map.
    + contradict Hfresh. rewrite <- Hkey. now apply in_map.
Qed.

(** In a list with distinct names [next] finds each descriptor's own
    handler. *)
Lemma next_handler_In (tools : list Tool.t) (tool : Tool.t) :
  NoDup (map Tool.name tools) -> In tool tools ->
  next_handler tools (Tool.name tool) = Some (Tool.handler tool).
Proof.
  induction tools as [|t tools IH]; simpl; intros Hnd Hin; [destruct Hin|].
  inversion Hnd as [|? ? Hnotin Hrest]; subst.
  destruct Hin as [->|Hin].
  - now rewrite String.eqb_refl.
  - destruct (String.eqb_spec (Tool.name t) (Tool.name tool)) as [Heq|Hne].
    + exfalso. apply Hnotin. rewrite Heq. now apply in_map.
    + now apply IH.
Qed.

(** What membership in the registry of a constructed server means. *)
Lemma registry_In ca allow_write excl ejr ec (tool : Tool.t) :
  In tool (allowed_tools (init ca allow_write excl ejr ec))
  <-> In tool Catalog.full_catalog
      /\ ~ In (Tool.name tool) (or_empty excl)
      /\ (allow_write = true \/ ~ In "write"%string (Tool.tags tool)).
Proof.
  rewrite Registry.allowed_tools_filter, filter_In, Registry.spec_allows_spec.
  reflexivity.
Qed.

Lemma registry_names_NoDup ca allow_write excl ejr ec :
  NoDup (map Tool.name (allowed_tools (init ca allow_write excl ejr ec))).
Proof.
  rewrite Registry.allowed_tools_filter.
  apply distinct_after_filter, catalog_names_distinct.
Qed.

Section Reach.

Context {H : Handlers}.

(** Asking a constructed server for a tool of its registry runs that
    tool's handler. *)
Lemma call_registry_tool ca allow_write excl ejr ec (tool : Tool.t)
  (arguments : json) (w : World) :
  let server := init ca allow_write excl ejr ec in
  In tool (allowed_tools server) ->
  call_tool server (Tool.name tool) arguments w
  = mkRun (try_except_Exception
             (fst (run_handler (Tool.handler tool)
                     (handler_args server (Tool.name tool) arguments) w)))
          [(Tool.handler tool, handler_args server (Tool.name tool) arguments)]
          (snd (run_handler (Tool.handler tool)
                  (handler_args server (Tool.name tool) arguments) w)).
Proof.
  intros server Hin.
  assert (Hnot : ~ In (Tool.name tool) (exclude_tools server))
    by (apply registry_In in Hin; tauto).
  assert (Hfind : next_handler (allowed_tools server) (Tool.name tool)
                  = Some (Tool.handler tool))
    by (apply next_handler_In; [apply registry_names_NoDup | exact Hin]).
  destruct (run_handler (Tool.handler tool)
              (handler_args server (Tool.name tool) arguments) w)
    as [result w'] eqn:Hrun.
  exact (Gateway.call_tool_resolved server (Tool.name tool) arguments w
           (Tool.handler tool) result w' Hnot Hfind Hrun).
Qed.

(** A handler call recorded by [call_tool] comes from a descriptor of the
    registry that carries the requested name. *)
Lemma calls_from_registry (self : t) (name : string) (arguments : json)
  (w : World) (handler : Handler) (args : HandlerArgs) :
  In (handler, args) (calls (call_tool self name arguments w)) ->
  exists tool,
    In tool (allowed_tools self) /\ Tool.name tool = name
    /\ Tool.handler tool = handler.
Proof.
  destruct (Gateway.call_tool_cases self name arguments w)
    as [[_ ->]|[[_ [_ ->]]|[h [result [w' [_ [Hsome [_ ->]]]]]]]];
    cbn [calls]; intros Hin; try destruct Hin as [Heq|[]]; try destruct Hin.
  injection Heq as <- _. now apply Gateway.next_handler_Some.
Qed.

End Reach.

(** X1.  Whatever the configuration, no two descriptors of the registry
    built by [__init__] share a name, and no two share a handler. *)
Theorem registry_names_distinct :
  forall ca allow_write excl ejr ec,
    let server := init ca allow_write excl ejr ec in
    NoDup (map Tool.name (allowed_tools server))
    /\ NoDup (map Tool.handler (allowed_tools server)).
Proof.
  intros ca allow_write excl ejr ec server. subst server.
  rewrite Registry.allowed_tools_filter. split.
  - apply distinct_after_filter, catalog_names_distinct.
  - apply distinct_after_filter, catalog_handlers_distinct.
Qed.

Lemma or_empty_Some (l : list string) : or_empty (Some l) = l.
Proof. now destruct l. Qed.

Lemma or_else_idem (x d : json) : or_else (or_else x d) d = or_else x d.
Proof.
  unfold or_else. destruct (truthy x) eqn:Hx; [now rewrite Hx|].
  now destruct (truthy d).
Qed.

(** X7.  [initialize_server] applies the defaults [or []] and [or {...}]
    before [__init__] applies them again; the second application changes
    nothing, so the global server is the one [MCPHTTPServer] builds from
    the raw parameters. *)
Theorem initialize_server_is_init :
  forall ca allow_write excl ejr ec,
    App.initialize_server ca allow_write excl ejr ec
    = Some (init ca allow_write excl ejr ec).
Proof.
  intros ca allow_write excl ejr ec. unfold App.initialize_server, init.
  now rewrite or_empty_Some, or_else_idem.
Qed.

Section Extras.

Context {H : Handlers}.

(** X2.  Asking a constructed server for the name of any descriptor of its
    registry makes exactly one handler call, to that descriptor's own
    handler, with the caller's [arguments]; the world afterwards is the
    one that call leaves. *)
Theorem dispatch_reaches_own_handler
  ca allow_write excl ejr ec (tool : Tool.t) (arguments : json) (w : World) :
  let server := init ca allow_write excl ejr ec in
  In tool (allowed_tools server) ->
  exists args : HandlerArgs,
    calls (call_tool server (Tool.name tool) arguments w)
    = [(Tool.handler tool, args)]
    /\ arg_arguments args = arguments
    /\ world_after (call_tool server (Tool.name tool) arguments w)
       = snd (run_handler (Tool.handler tool) args w).
Proof.
  intros server Hin. subst server.
  exists (handler_args (init ca allow_write excl ejr ec) (Tool.name tool) arguments).
  rewrite (call_registry_tool ca allow_write excl ejr ec tool arguments w Hin).
  cbn [calls world_after]. repeat split.
  unfold handler_args. now destruct (str_in _ _).
Qed.

(** X3.  A constructed server answers every request in one of two ways:
    it returns an error body without calling any handler or touching the
    world; or it makes exactly one call, to the handler the catalog binds
    to the requested name, and then that name is not excluded and the
    descriptor is not tagged ["write"] unless writes are allowed. *)
Theorem dispatch_refuses_or_runs_admitted :
  forall ca allow_write excl ejr ec (name : string) (arguments : json) (w : World),
    let server := init ca allow_write excl ejr ec in
    let run := call_tool server name arguments w in
    (calls run = [] /\ world_after run = w
     /\ exists message : string,
         outcome run = Returned (JObj [("error", JStr message)]))
    \/ (exists tool : Tool.t,
           In tool Catalog.full_catalog /\ Tool.name tool = name
           /\ ~ In name (or_empty excl)
           /\ (allow_write = true \/ ~ In "write"%string (Tool.tags tool))
           /\ calls run = [(Tool.handler tool, handler_args server name arguments)]
           /\ world_after run
              = snd (run_handler (Tool.handler tool)
                       (handler_args server name arguments) w)).
Proof.
  intros ca allow_write excl ejr ec name arguments w server run. subst run.
  destruct (Gateway.call_tool_cases server name arguments w)
    as [[_ ->]|[[_ [_ ->]]|[h [result [w' [_ [Hsome [Hrun ->]]]]]]]];
    cbn [calls world_after outcome].
  - left. repeat split. eexists. reflexivity.
  - left. repeat split. eexists. reflexivity.
  - right. apply Gateway.next_handler_Some in Hsome as [tool [Hin [Hname <-]]].
    apply registry_In in Hin as [Hcat [Hexcl Hwrite]].
    exists tool. rewrite Hrun. subst name. repeat split; auto.
Qed.

(** X4.  On a server built with [allow_write=false], whatever name is
    requested and whatever is excluded, neither [handle_write_query] nor
    [handle_create_table] is ever called. *)
Theorem read_only_never_runs_write_handler :
  forall ca excl ejr ec (name : string) (arguments : json) (w : World),
    let run := call_tool (init ca false excl ejr ec) name arguments w in
    ~ In handle_write_query (map fst (calls run))
    /\ ~ In handle_create_table (map fst (calls run)).
Proof.
  intros ca excl ejr ec name arguments w run. subst run.
  assert (Hgen : forall handler args,
             In (handler, args)
                (calls (call_tool (init ca false excl ejr ec) name arguments w)) ->
             handler <> handle_write_query /\ handler <> handle_create_table).
  { intros handler args Hin.
    apply calls_from_registry in Hin as [tool [Hin [_ <-]]].
    apply registry_In in Hin as [Hcat [_ [Hw|Hw]]]; [discriminate|].
    cbn in Hcat.
    repeat (destruct Hcat as [<-|Hcat]; [split; discriminate|]).
    destruct Hcat as [<-|[<-|[]]]; exfalso; apply Hw; now left. }
  split; intros Hin; apply in_map_iff in Hin as [[handler args] [Hfst Hin]];
    cbn in Hfst; subst handler; destruct (Hgen _ _ Hin) as [Hwq Hct]; congruence.
Qed.

(** X5.  The handler of a catalog tool whose name is in [exclude_tools] is
    never called by the constructed server, under whatever name the
    request comes. *)
Theorem excluded_handler_never_runs
  ca allow_write excl ejr ec (tool : Tool.t)
  (name : string) (arguments : json) (w : World) :
  In tool Catalog.full_catalog ->
  In (Tool.name tool) (or_empty excl) ->
  ~ In (Tool.handler tool)
       (map fst (calls (call_tool (init ca allow_write excl ejr ec) name
                          arguments w))).
Proof.
  intros Hcat Hexcluded Hin.
  apply in_map_iff in Hin as [[handler args] [Hfst Hin]]. cbn in Hfst. subst handler.
  apply calls_from_registry in Hin as [tool' [Hin' [_ Hhandler]]].
  apply registry_In in Hin' as [Hcat' [Hnot _]].
  assert (tool' = tool)
    by (apply (same_key_same_tool Tool.handler Catalog.full_catalog
                 catalog_handlers_distinct); auto).
  subst tool'. contradiction.
Qed.

(** X6.  [GET /tools] and dispatch agree: a name is listed by
    [get_tools_list] of a constructed server exactly when a request for it
    reaches a handler. *)
Theorem listing_matches_dispatch :
  forall ca allow_write excl ejr ec (name : string) (arguments : json) (w : World),
    let server := init ca allow_write excl ejr ec in
    (exists entry : json,
        In entry (get_tools_list server) /\ get "name" entry = Some (JStr name))
    <-> (exists (handler : Handler) (args : HandlerArgs),
            calls (call_tool server name arguments w) = [(handler, args)]).
Proof.
  intros ca allow_write excl ejr ec name arguments w server. split.
  - intros [entry [Hin Hname]]. unfold get_tools_list in Hin.
    apply in_map_iff in Hin as [tool [<- Hin]]. cbn in Hname.
    injection Hname as <-.
    exists (Tool.handler tool), (handler_args server (Tool.name tool) arguments).
    subst server.
    now rewrite (call_registry_tool ca allow_write excl ejr ec tool arguments w Hin).
  - intros [handler [args Hcalls]].
    assert (Hin : In (handler, args) (calls (call_tool server name arguments w)))
      by (rewrite Hcalls; now left).
    apply calls_from_registry in Hin as [tool [Hin [Hname _]]].
    exists (JObj [("name", JStr (Tool.name tool));
                  ("description", JStr (Tool.description tool));
                  ("input_schema", Tool.input_schema tool)]).
    split.
    + unfold get_tools_list. apply in_map_iff. exists tool. auto.
    + cbn. now rewrite Hname.
Qed.

End Extras.

(** Witness of X2: [read_query] on the read-only server. *)
Lemma dispatch_reaches_own_handler_witness :
  exists args : HandlerArgs,
    calls (call_tool (H := stub_handlers two_items) read_only_server
             "read_query" (JObj [("query", JStr "SELECT 1")]) nothing_ran)
    = [(handle_read_query, args)]
    /\ arg_arguments args = JObj [("query", JStr "SELECT 1")]
    /\ world_after (call_tool (H := stub_handlers two_items) read_only_server
                      "read_query" (JObj [("query", JStr "SELECT 1")]) nothing_ran)
       = snd (run_handler (Handlers := stub_handlers two_items)
                handle_read_query args nothing_ran).
Proof.
  refine (dispatch_reaches_own_handler (H := stub_handlers two_items)
            (JObj []) false None false JNull Catalog.read_query
            (JObj [("query", JStr "SELECT 1")]) nothing_ran _).
  cbn. do 4 right. left. reflexivity.
Defined.

(** Witness of X5: on the server that excludes [create_table], a request
    for [write_query] does not reach [handle_create_table]. *)
Lemma excluded_handler_never_runs_witness :
  ~ In handle_create_table
       (map fst (calls (call_tool (H := stub_handlers two_items) write_server
                          "write_query" JNull nothing_ran))).
Proof.
  refine (excluded_handler_never_runs (H := stub_handlers two_items)
            (JObj []) true (Some ["create_table"%string]) false JNull
            Catalog.create_table "write_query"%string JNull nothing_ran _ _).
  - cbn. do 7 right. left. reflexivity.
  - cbn. left. reflexivity.
Defined.

End Dispatch.

(* ================================================================== *)
(** ** Start-up: configuration loading and [main] *)
(* ================================================================== *)

Module Startup.

Import StartHttpServer.

Lemma has_key_assoc (k : string) (d : list (string * json)) :
  has_key k d = false <-> assoc k d = None.
Proof.
  induction d as [|[k' v] d IH]; simpl; [tauto|].
  destruct (String.eqb k k'); simpl; [split; discriminate | exact IH].
Qed.

Section Loading.

Context {F : Files}.

(** [load_toml_config] with its two guards resolved. *)
Lemma load_toml_config_eq (connections_file connection_name : string) :
  load_toml_config connections_file connection_name
  = match load_toml connections_file with
    | Err e => Err e
    | Ok config =>
        match assoc connection_name config with
        | Some section => Ok section
        | None =>
            Err (ValueError ("Connection '" ++ connection_name
                             ++ "' not found in " ++ connections_file))
        end
    end.
Proof.
  unfold load_toml_config.
  destruct (load_toml connections_file) as [config|e]; cbn.
  - destruct (assoc connection_name config) as [section|] eqn:Hassoc.
    + destruct (has_key connection_name config) eqn:Hkey; cbn; [reflexivity|].
      apply has_key_assoc in Hkey. congruence.
    + apply has_key_assoc in Hassoc. now rewrite Hassoc.
  - now destruct (isinstance_Exception e).
Qed.

(** What a call of [run_server] by [main] tells about the run. *)
Lemma main_started (args : Namespace) (h : string) (p : Z)
  (g : option MCPHTTPServer.t) :
  main args = RunServer h p g ->
  exists (section : json) (fields : list (string * json)),
    load_toml_config (connections_file args) (connection_name args) = Ok section
    /\ load_runtime_config (config_file args) = Ok (JObj fields)
    /\ db_start section = None
    /\ h = host args /\ p = port args
    /\ g = App.initialize_server section (allow_write args)
             (Some (exclude_tools args)) (exclude_json_results args)
             match assoc "exclude_patterns" fields with
             | Some v => v
             | None => default_exclude_patterns
             end.
Proof.
  unfold main, except_Exception_exit.
  destruct (load_toml_config _ _) as [section|e];
    [|destruct (isinstance_Exception e); discriminate].
  destruct (load_runtime_config _) as [runtime|e];
    [|destruct (isinstance_Exception e); discriminate].
  destruct runtime as [ | | | | |fields]; cbn [get_or_default]; try discriminate.
  destruct (assoc "exclude_patterns" fields) as [v|] eqn:Hassoc;
    (destruct (db_start section) as [e|] eqn:Hdb;
     [destruct (isinstance_Exception e); discriminate|]);
    intros Hrun; exists section, fields; rewrite Hassoc;
    injection Hrun as <- <- <-; repeat split; auto.
Qed.

(** X8.  [load_toml_config] returns a section exactly when the file loads
    and holds the connection name, and then it is the value stored under
    that name; when the file loads without the name it raises [ValueError]
    naming the connection and the file (never [KeyError]); when the file
    does not load it raises what the load raised. *)
Theorem load_toml_config_section :
  forall (connections_file connection_name : string),
    (forall section : json,
        load_toml_config connections_file connection_name = Ok section
        <-> exists config,
              load_toml connections_file = Ok config
              /\ assoc connection_name config = Some section)
    /\ (forall config,
           load_toml connections_file = Ok config ->
           assoc connection_name config = None ->
           load_toml_config connections_file connection_name
           = Err (mk_exc ExceptionClass
                    ("Connection '" ++ connection_name ++ "' not found in "
                     ++ connections_file)))
    /\ (forall e : exc,
           load_toml connections_file = Err e ->
           load_toml_config connections_file connection_name = Err e).
Proof.
  intros connections_file connection_name.
  rewrite load_toml_config_eq.
  destruct (load_toml connections_file) as [config|e]; repeat split.
  - destruct (assoc connection_name config) as [s|] eqn:Hassoc; [|discriminate].
    intros [= <-]. now exists config.
  - intros [config' [[= <-] Hassoc]]. now rewrite Hassoc.
  - intros config' [= <-] Hassoc. now rewrite Hassoc.
  - discriminate.
  - discriminate.
  - intros [config [Hload _]]. discriminate.
  - discriminate.
  - intros e' [= <-]. reflexivity.
Qed.

(** X9.  [load_runtime_config] never raises an instance of [Exception]:
    it returns [{}] when the file does not exist and when opening or
    parsing it raises one, and the parsed value otherwise; the only thing
    it can raise is an object outside [Exception] that the load raised. *)
Theorem load_runtime_config_never_fails :
  forall config_file : string,
    (path_exists config_file = false ->
     load_runtime_config config_file = Ok (JObj []))
    /\ (forall v : json,
           path_exists config_file = true -> load_json config_file = Ok v ->
           load_runtime_config config_file = Ok v)
    /\ (forall e : exc,
           path_exists config_file = true -> load_json config_file = Err e ->
           isinstance_Exception e = true ->
           load_runtime_config config_file = Ok (JObj []))
    /\ (forall e : exc,
           load_runtime_config config_file = Err e ->
           isinstance_Exception e = false
           /\ path_exists config_file = true /\ load_json config_file = Err e).
Proof.
  intros config_file. unfold load_runtime_config, except_Exception_return.
  destruct (path_exists config_file); repeat split; try discriminate.
  - intros v _ ->. reflexivity.
  - intros e _ -> ->. reflexivity.
  - destruct (load_json config_file) as [v|e']; [discriminate|].
    destruct (isinstance_Exception e') eqn:Hcls in H; [discriminate|].
    injection H as <-. exact Hcls.
  - destruct (load_json config_file) as [v|e']; [discriminate|].
    destruct (isinstance_Exception e'); [discriminate|]. now injection H as <-.
Qed.

End Loading.

Section Main.

Context {F : Files}.


(** X10.  When [main] reaches [run_server], the [exclusion_config] of the
    server it built comes from the runtime configuration: without a key
    [exclude_patterns] it is the default that hides [temp] and
    [information_schema]; with a truthy value under the key it is that
    value; with a falsy one ([null], [{}], ...) it is the dict of three
    empty lists, not the default. *)
Theorem main_exclusion_patterns
  (args : Namespace) (h : string) (p : Z) (server : MCPHTTPServer.t) :
  main args = RunServer h p (Some server) ->
  exists fields : list (string * json),
    load_runtime_config (config_file args) = Ok (JObj fields)
    /\ MCPHTTPServer.exclusion_config server
       = match assoc "exclude_patterns" fields with
         | None =>
             JObj [("databases", JList [JStr "temp"]);
                   ("schemas", JList [JStr "temp"; JStr "information_schema"]);
                   ("tables", JList [JStr "temp"])]
         | Some v =>
             if truthy v then v
             else JObj [("databases", JList []); ("schemas", JList []);
                        ("tables", JList [])]
         end.
Proof.
  intros Hrun.
  apply main_started in Hrun
    as [section [fields [_ [Hruntime [_ [_ [_ Hserver]]]]]]].
  exists fields. split; [exact Hruntime|].
  unfold App.initialize_server in Hserver. injection Hserver as ->.
  cbn [MCPHTTPServer.exclusion_config MCPHTTPServer.init].
  rewrite Dispatch.or_else_idem.
  now destruct (assoc "exclude_patterns" fields).
Qed.

(** X11.  When [main] reaches [run_server] it does so with the host and
    port of the command line, and the server it built holds the section
    of the connections file, the flags of the command line, and as
    registry the catalog filtered by the command line's [--allow-write]
    and [--exclude-tools]. *)
Theorem main_enforces_command_line
  (args : Namespace) (h : string) (p : Z) (g : option MCPHTTPServer.t) :
  main args = RunServer h p g ->
  h = host args /\ p = port args
  /\ exists (server : MCPHTTPServer.t) (section : json),
      g = Some server
      /\ load_toml_config (connections_file args) (connection_name args)
         = Ok section
      /\ MCPHTTPServer.connection_args server = section
      /\ MCPHTTPServer.allow_write server = allow_write args
      /\ MCPHTTPServer.exclude_tools server = exclude_tools args
      /\ MCPHTTPServer.exclude_json_results server = exclude_json_results args
      /\ MCPHTTPServer.allowed_tools server
         = filter (Spec.spec_allows (allow_write args) (exclude_tools args))
             Catalog.full_catalog.
Proof.
  intros Hrun.
  apply main_started in Hrun
    as [section [fields [Htoml [_ [_ [-> [-> ->]]]]]]].
  split; [reflexivity|]. split; [reflexivity|].
  unfold App.initialize_server. eexists. exists section.
  split; [reflexivity|]. split; [exact Htoml|].
  rewrite Registry.allowed_tools_filter.
  cbn [MCPHTTPServer.connection_args MCPHTTPServer.allow_write
       MCPHTTPServer.exclude_tools MCPHTTPServer.exclude_json_results
       MCPHTTPServer.init].
  rewrite !Dispatch.or_empty_Some. repeat split.
Qed.

(** X12.  When the connections file loads but does not hold the
    connection name, or when loading it raises an instance of
    [Exception], [main] ends in [sys.exit(1)]. *)
Theorem main_exits_without_connection (args : Namespace) :
  (exists config,
      load_toml (connections_file args) = Ok config
      /\ assoc (connection_name args) config = None)
  \/ (exists e, load_toml (connections_file args) = Err e
                /\ isinstance_Exception e = true) ->
  main args = SysExit 1.
Proof.
  intros Hbad. unfold main. rewrite load_toml_config_eq.
  destruct Hbad as [[config [-> ->]]|[e [-> Hcls]]];
    unfold except_Exception_exit; [reflexivity|now rewrite Hcls].
Qed.


(** X14.  A runtime configuration file that parses to something other
    than an object (a list, a string, a number, [null]) is worse than a
    broken one: [runtime_config.get] raises and [main] ends in
    [sys.exit(1)]. *)
Theorem main_exits_on_non_object_runtime_config
  (args : Namespace) (section v : json) :
  load_toml_config (connections_file args) (connection_name args) = Ok section ->
  path_exists (config_file args) = true ->
  load_json (config_file args) = Ok v ->
  (forall fields, v <> JObj fields) ->
  main args = SysExit 1.
Proof.
  intros Htoml Hexists Hload Hshape. unfold main.
  rewrite Htoml. unfold load_runtime_config. rewrite Hexists, Hload. cbn.
  destruct v as [ | | | | |fields]; try reflexivity.
  now destruct (Hshape fields).
Qed.

End Main.

(** Witness of X10: the runtime configuration [{"exclude_patterns": {}}]
    gives the three empty lists. *)
Lemma main_exclusion_patterns_witness :
  exists fields : list (string * json),
    load_runtime_config
      (F := sample_files (Some (Ok (JObj [("exclude_patterns", JObj [])]))))
      "runtime_config.json"
    = Ok (JObj fields)
    /\ assoc "exclude_patterns" fields = Some (JObj []).
Proof.
  destruct (main_exclusion_patterns
              (F := sample_files (Some (Ok (JObj [("exclude_patterns", JObj [])]))))
              (sample_args "prod") _ _ _ eq_refl)
    as [fields [Hruntime _]].
  exists fields. split; [exact Hruntime|].
  cbn in Hruntime. injection Hruntime as <-. reflexivity.
Defined.

(** Witness of X11: start-up with no runtime configuration file. *)
Lemma main_enforces_command_line_witness :
  exists server : MCPHTTPServer.t,
    main (F := sample_files None) (sample_args "prod")
    = RunServer "0.0.0.0" 8000 (Some server)
    /\ map Tool.name (MCPHTTPServer.allowed_tools server)
       = ["list_databases"; "list_schemas"; "list_tables"; "describe_table";
          "read_query"; "append_insight"]%string.
Proof.
  destruct (main_enforces_command_line (F := sample_files None)
              (sample_args "prod") _ _ _ eq_refl)
    as [_ [_ [server [section [Hg [_ [_ [_ [_ [_ Hreg]]]]]]]]]].
  exists server. split.
  - cbn. cbn in Hg. now rewrite Hg.
  - rewrite Hreg. reflexivity.
Defined.

(** Witness of X12: the connection name [staging] is not in the file. *)
Lemma main_exits_without_connection_witness :
  main (F := sample_files None) (sample_args "staging") = SysExit 1.
Proof.
  apply (main_exits_without_connection (F := sample_files None)
           (sample_args "staging")).
  left. exists [("prod", JObj [("account", JStr "acme")])]. split; reflexivity.
Defined.


(** Witness of X14: the runtime configuration file holds a list. *)
Lemma main_exits_on_non_object_runtime_config_witness :
  main (F := sample_files (Some (Ok (JList [JStr "temp"])))) (sample_args "prod")
  = SysExit 1.
Proof.
  apply (main_exits_on_non_object_runtime_config
           (F := sample_files (Some (Ok (JList [JStr "temp"]))))
           (sample_args "prod") (JObj [("account", JStr "acme")])
           (JList [JStr "temp"]) eq_refl eq_refl eq_refl).
  intros fields Heq. discriminate Heq.
Defined.

End Startup.

(* ================================================================== *)
(** ** How fast the heartbeat can go *)
(* ================================================================== *)

Module HeartbeatRate.

Import Sse.

Section Rate.

Context {L : EventLoop} {laws : EventLoopLaws L}.

(** Resumed inside the loop at clock [time e], the generator yields its
    item number [k] (from 0) no earlier than [30 * (k + 1)] seconds
    later. *)
Lemma loop_item_not_before (n : nat) :
  forall (e : Env) (k : nat) (item : Emission),
    nth_error (drain n AtPing e) k = Some item ->
    time e + 30 * inject_Z (Z.of_nat (S k)) <= emitted_at item.
Proof.
  induction n as [|n IH]; intros e k item; cbn [drain anext].
  - destruct k; discriminate.
  - pose proof (sleep_lasts 30 e) as Hsleep.
    pose proof (resume_later (sleep 30 e)) as Hresume.
    destruct k as [|k]; cbn [nth_error].
    + intros [= <-]. cbn [emitted_at].
      change (inject_Z (Z.of_nat 1)) with 1. lra.
    + intros Hnth. apply IH in Hnth.
      rewrite (Nat2Z.inj_succ (S k)). unfold Z.succ.
      rewrite inject_Z_plus. change (inject_Z 1) with 1.
      set (q := inject_Z (Z.of_nat (S k))) in *. lra.
Qed.

End Rate.

(** X15.  In every lawful event loop the heartbeat cannot outrun its
    sleep: the item at position [k + 2] of the stream (the connection
    event is at 0, the first ping at 1) is yielded no earlier than
    [30 * (k + 1)] seconds after the stream was opened. *)
Theorem ping_not_before
  (L : EventLoop) (laws : EventLoopLaws L) (e : Env) (n k : nat)
  (item : Emission) :
  nth_error (drain n event_stream e) (S (S k)) = Some item ->
  time e + 30 * inject_Z (Z.of_nat (S k)) <= emitted_at item.
Proof.
  destruct n as [|[|n]]; cbn [drain anext event_stream nth_error];
    try discriminate.
  intros Hnth. apply loop_item_not_before in Hnth.
  pose proof (resume_later e) as H1.
  pose proof (resume_later (resume e)) as H2.
  lra.
Qed.

(** Witness of X15: the fourth item in the ideal loop. *)
Lemma ping_not_before_witness :
  0 + 30 * inject_Z (Z.of_nat 2)
  <= emitted_at (mkEmission (Data (ping_event (0 + 30 + 30))) [30] (0 + 30 + 30)).
Proof.
  exact (ping_not_before ideal_loop Heartbeat.ideal_loop_laws 0 4 1
           (mkEmission (Data (ping_event (0 + 30 + 30))) [30] (0 + 30 + 30))
           eq_refl).
Defined.

End HeartbeatRate.

(* ================================================================== *)
(** ** How the registry varies with the configuration *)
(* ================================================================== *)

Module Policy.

Import MCPHTTPServer.

(** X16.  The registry depends on [exclude_tools] only through the set of
    names it holds: order and repetitions make no difference. *)
Theorem registry_ignores_exclusion_order
  ca allow_write (excl excl' : option (list string)) ejr ec :
  (forall x : string, In x (or_empty excl) <-> In x (or_empty excl')) ->
  allowed_tools (init ca allow_write excl ejr ec)
  = allowed_tools (init ca allow_write excl' ejr ec).
Proof.
  intros Hsame. rewrite !Registry.allowed_tools_filter.
  apply filter_ext. intros tool. unfold Spec.spec_allows. f_equal. f_equal.
  destruct (str_in (Tool.name tool) (or_empty excl)) eqn:Hin; symmetry.
  - apply PyFacts.str_in_In. apply Hsame. now apply PyFacts.str_in_In.
  - apply PyFacts.str_in_not_In. intros Hin'. apply Hsame in Hin'.
    apply PyFacts.str_in_not_In in Hin. contradiction.
Qed.

(** X17.  Allowing writes only appends: the registry built with
    [allow_write=true] is the registry built with [allow_write=false]
    followed by those of [write_query], [create_table] that are not
    excluded. *)
Theorem allow_write_appends :
  forall ca excl ejr ec,
    allowed_tools (init ca true excl ejr ec)
    = allowed_tools (init ca false excl ejr ec)
      ++ filter (fun tool => negb (str_in (Tool.name tool) (or_empty excl)))
           [Catalog.write_query; Catalog.create_table].
Proof.
  intros ca excl ejr ec. rewrite !Registry.allowed_tools_filter.
  unfold Catalog.full_catalog. rewrite !filter_app.
  replace (filter (Spec.spec_allows false (or_empty excl)) Catalog.write_tools)
    with (@nil Tool.t)
    by (unfold Spec.spec_allows; cbn; now rewrite !andb_false_r).
  rewrite app_nil_r.
  assert (Hbase : filter (Spec.spec_allows true (or_empty excl)) Catalog.base_tools
                  = filter (Spec.spec_allows false (or_empty excl))
                      Catalog.base_tools).
  { apply filter_ext_in. intros tool Hin. unfold Spec.spec_allows.
    cbn in Hin.
    repeat (destruct Hin as [<-|Hin]; [reflexivity|]). destruct Hin. }
  rewrite Hbase. f_equal.
  apply filter_ext. intros tool. unfold Spec.spec_allows.
  now rewrite andb_true_r.
Qed.

(** Witness of X16: [create_table] excluded twice or once. *)
Lemma registry_ignores_exclusion_order_witness :
  allowed_tools (init (JObj []) true
                   (Some ["create_table"; "create_table"]%string) false JNull)
  = allowed_tools write_server.
Proof.
  apply (registry_ignores_exclusion_order (JObj []) true
           (Some ["create_table"; "create_table"]%string)
           (Some ["create_table"%string]) false JNull).
  intros x. cbn. tauto.
Defined.

End Policy.
